(** * jennytest.cpp: the HomeKit sampling loop of the sketch

    A shallow embedding of [my_homekit_loop] and [my_homekit_report]
    (src/src/jennytest.cpp).  The sketch is single threaded; every call into
    the HomeKit server, the DHT driver, the digital pins and the serial
    console is an external call.  One pass through [loop()] is modelled as a
    computation that
    - reads the values the outside world answers with on that pass ([Env]),
    - threads the sketch's own mutable data ([World]: the two static
      deadlines and the [value] fields of the three characteristics), and
    - emits the external calls it makes, in order ([Event]).

    [uint32_t] is [Z] with the reduction modulo [2^32] written out; the C
    [float] and [double] are [spec_float] at precision 24 and 53. *)

From Stdlib Require Import ZArith List Bool Lia String.
From Stdlib Require Import Floats.SpecFloat.
Import ListNotations.
Local Open Scope Z_scope.

(** ** Machine integers *)

Module UInt32.
Definition modulus : Z := 2 ^ 32.
Definition max_value : Z := modulus - 1.
Definition in_range (z : Z) : Prop := 0 <= z <= max_value.
(** Conversion of a mathematical result to [uint32_t]. *)
Definition wrap (z : Z) : Z := z mod modulus.
(** [a + b] on [uint32_t] operands. *)
Definition add (a b : Z) : Z := wrap (a + b).
End UInt32.

(** ** Floating point: C [float] (binary32) and [double] (binary64) *)

Module FP.
Definition float : Type := spec_float.
Definition double : Type := spec_float.

Definition prec32 : Z := 24.
Definition emax32 : Z := 128.
Definition prec64 : Z := 53.
Definition emax64 : Z := 1024.

(** Implicit promotion [float -> double] of an operand (exact). *)
Definition to_double (x : float) : double :=
  match x with
  | S754_finite s m e => binary_round prec64 emax64 s m e
  | _ => x
  end.

(** Conversion [double -> float] of an initialiser (round to nearest even). *)
Definition to_float (x : double) : float :=
  match x with
  | S754_finite s m e => binary_round prec32 emax32 s m e
  | _ => x
  end.

(** [x - y] on [double] operands. *)
Definition dsub (x y : double) : double := SFsub prec64 emax64 x y.

(** The [double] literal [3.0]. *)
Definition lit_3_0 : double := binary_round prec64 emax64 false 3 0.

(** A [float] holding the integer [n] (used to write concrete readings). *)
Definition float_of_Z (n : Z) : float := binary_normalize prec32 emax32 n 0 false.

Definition isnan (x : spec_float) : bool :=
  match x with
  | S754_nan => true
  | _ => false
  end.

Definition NAN : float := S754_nan.
End FP.

(** ** Constants of the sketch *)

Inductive Pin : Type := D0 | D1 | D3.

Definition OCCUPANCY_SENSOR_PIN : Pin := D1.
Definition DHTPIN : Pin := D3.

Definition HIGH : Z := 1.
Definition LOW : Z := 0.

(** [#define REPORTING_TIME_MS 2 * 1000] and [#define SHOW_HEAP_MS 10 * 1000].
    The second macro is defined by the sketch and used nowhere in it. *)
Definition REPORTING_TIME_MS : Z := 2 * 1000.
Definition SHOW_HEAP_MS : Z := 10 * 1000.

(** ** Characteristics, events, the outside world *)

Inductive characteristic : Type :=
| cha_occupancy_detected
| cha_temperature
| cha_humidity.

(** The two members of [homekit_value_t] the sketch writes. *)
Inductive homekit_value : Type :=
| float_value (f : FP.float)
| bool_value (b : bool).

(** An argument of a [printf]-style log line. *)
Inductive LogArg : Type :=
| ArgInt (z : Z)
| ArgFloat (f : FP.float)
| ArgStr (s : string).

(** The external calls of the sketch, as they appear in the source. *)
Inductive Event : Type :=
| EvHomekitLoop                                   (* arduino_homekit_loop() *)
| EvMillis                                        (* millis() *)
| EvGetTemperature                                (* dht.getTemperature() *)
| EvGetHumidity                                   (* dht.getHumidity() *)
| EvDigitalRead (p : Pin)                         (* digitalRead(p) *)
| EvDigitalWrite (p : Pin) (level : Z)            (* digitalWrite(p, level) *)
| EvSerialPrintln (msg : string)                  (* Serial.println(F(msg)) *)
| EvNotify (c : characteristic) (v : homekit_value) (* homekit_characteristic_notify(&c, v) *)
| EvClientsCount                                  (* arduino_homekit_connected_clients_count() *)
| EvGetFreeHeap                                   (* ESP.getFreeHeap() *)
| EvLog (fmt : string) (args : list LogArg).      (* LOG_D(fmt, args...) *)

(** What the outside world answers during one pass of [loop()]. *)
Record Env : Type := mkEnv {
  env_millis : Z;               (* millis(), a uint32_t *)
  env_temperature : FP.float;   (* dht.getTemperature(), NaN on a failed read *)
  env_humidity : FP.float;      (* dht.getHumidity(), NaN on a failed read *)
  env_occupancy_pin : Z;        (* digitalRead(OCCUPANCY_SENSOR_PIN) *)
  env_free_heap : Z;            (* ESP.getFreeHeap() *)
  env_clients : Z               (* arduino_homekit_connected_clients_count() *)
}.

(** The mutable data the sketch owns or writes: the two file-scope statics
    and the [value] of each characteristic declared [extern "C"]. *)
Record World : Type := mkWorld {
  next_heap_millis : Z;
  next_report_millis : Z;
  temperature_value : FP.float;   (* cha_temperature.value.float_value *)
  humidity_value : FP.float;      (* cha_humidity.value.float_value *)
  occupancy_value : bool          (* cha_occupancy_detected.value.bool_value *)
}.

Definition set_next_heap_millis (z : Z) (w : World) : World :=
  mkWorld z (next_report_millis w) (temperature_value w) (humidity_value w) (occupancy_value w).
Definition set_next_report_millis (z : Z) (w : World) : World :=
  mkWorld (next_heap_millis w) z (temperature_value w) (humidity_value w) (occupancy_value w).
Definition set_temperature_value (f : FP.float) (w : World) : World :=
  mkWorld (next_heap_millis w) (next_report_millis w) f (humidity_value w) (occupancy_value w).
Definition set_humidity_value (f : FP.float) (w : World) : World :=
  mkWorld (next_heap_millis w) (next_report_millis w) (temperature_value w) f (occupancy_value w).
Definition set_occupancy_value (b : bool) (w : World) : World :=
  mkWorld (next_heap_millis w) (next_report_millis w) (temperature_value w) (humidity_value w) b.

(** [static uint32_t next_heap_millis = 0; static uint32_t next_report_millis = 0;]
    The initial characteristic values come from my_accessory.c, which is not
    part of the sources; they are parameters. *)
Definition initial_world (t0 h0 : FP.float) (o0 : bool) : World :=
  mkWorld 0 0 t0 h0 o0.

(** ** The monad of one pass: reader of [Env], state [World], writer of [Event]s *)

Definition M (A : Type) : Type := Env -> World -> A * World * list Event.

Definition ret {A : Type} (a : A) : M A := fun _ w => (a, w, []).

Definition bind {A B : Type} (m : M A) (k : A -> M B) : M B :=
  fun env w =>
    let '(a, w1, e1) := m env w in
    let '(b, w2, e2) := k a env w1 in
    (b, w2, e1 ++ e2).

Declare Scope m_scope.
Delimit Scope m_scope with M.
Notation "x <- m ;; k" := (bind m (fun x => k))
  (at level 61, m at next level, right associativity) : m_scope.
Notation "m ;; k" := (bind m (fun _ => k))
  (at level 61, right associativity) : m_scope.
Local Open Scope m_scope.

Definition call {A : Type} (ev : Event) (answer : Env -> A) : M A :=
  fun env w => (answer env, w, [ev]).
Definition emit (ev : Event) : M unit := fun _ w => (tt, w, [ev]).
Definition load {A : Type} (field : World -> A) : M A := fun _ w => (field w, w, []).
Definition store (update : World -> World) : M unit := fun _ w => (tt, update w, []).

Definition result {A : Type} (r : A * World * list Event) : A := fst (fst r).
Definition world_of {A : Type} (r : A * World * list Event) : World := snd (fst r).
Definition events_of {A : Type} (r : A * World * list Event) : list Event := snd r.

(** *** The external calls *)

Definition arduino_homekit_loop : M unit := emit EvHomekitLoop.
Definition millis : M Z := call EvMillis env_millis.
Definition dht_getTemperature : M FP.float := call EvGetTemperature env_temperature.
Definition dht_getHumidity : M FP.float := call EvGetHumidity env_humidity.
Definition digitalRead (p : Pin) : M Z := call (EvDigitalRead p) env_occupancy_pin.
Definition digitalWrite (p : Pin) (level : Z) : M unit := emit (EvDigitalWrite p level).
Definition Serial_println (msg : string) : M unit := emit (EvSerialPrintln msg).
Definition homekit_characteristic_notify (c : characteristic) (v : homekit_value) : M unit :=
  emit (EvNotify c v).
Definition arduino_homekit_connected_clients_count : M Z := call EvClientsCount env_clients.
Definition ESP_getFreeHeap : M Z := call EvGetFreeHeap env_free_heap.
Definition LOG_D (fmt : string) (args : list LogArg) : M unit := emit (EvLog fmt args).

(** The C conversion [(bool) n]. *)
Definition bool_of_int (n : Z) : bool := negb (n =? 0).

(** ** [my_homekit_report] (lines 114-140) *)

(** The three locals of [my_homekit_report]. *)
Record SampleReading : Type := mkSample {
  temp : FP.float;
  hum : FP.float;
  occupancy_sensor_value : bool
}.

(** [dht.getTemperature() - 3.0] stored into a [float]: the operand is
    promoted to [double], the difference is taken there and converted back. *)
Definition calibrated (raw : FP.float) : FP.float :=
  FP.to_float (FP.dsub (FP.to_double raw) FP.lit_3_0).

(** The C function returns [void]; the model returns the final values of its
    three locals so that statements can name them. *)
Definition my_homekit_report : M SampleReading :=
  raw <- dht_getTemperature ;;
  let temp := calibrated raw in
  hum <- dht_getHumidity ;;
  level <- digitalRead OCCUPANCY_SENSOR_PIN ;;
  let occupancy_sensor_value := bool_of_int level in
  digitalWrite D0 (if occupancy_sensor_value then HIGH else LOW) ;;
  (if FP.isnan hum || FP.isnan temp then
     Serial_println "Failed to read from DHT sensor!"
   else
     store (set_temperature_value temp) ;;
     v <- load temperature_value ;;
     homekit_characteristic_notify cha_temperature (float_value v) ;;
     store (set_humidity_value hum) ;;
     v <- load humidity_value ;;
     homekit_characteristic_notify cha_humidity (float_value v) ;;
     LOG_D "Temp (C): %.1f" [ArgFloat temp] ;;
     LOG_D "Hum (percent): %.0f" [ArgFloat hum]) ;;
  store (set_occupancy_value occupancy_sensor_value) ;;
  v <- load occupancy_value ;;
  homekit_characteristic_notify cha_occupancy_detected (bool_value v) ;;
  LOG_D "Occupancy sensor is: %s"
        [ArgStr (if occupancy_sensor_value then "active" else "inactive")] ;;
  ret (mkSample temp hum occupancy_sensor_value).

(** ** [my_homekit_loop] (lines 97-112) *)

Definition my_homekit_loop : M unit :=
  arduino_homekit_loop ;;
  t <- millis ;;
  deadline <- load next_report_millis ;;
  (if t >? deadline then
     store (set_next_report_millis (UInt32.add t REPORTING_TIME_MS)) ;;
     _ <- my_homekit_report ;;
     ret tt
   else ret tt) ;;
  deadline <- load next_heap_millis ;;
  (if t >? deadline then
     connected_clients <- arduino_homekit_connected_clients_count ;;
     store (set_next_heap_millis (UInt32.add t (5 * 1000))) ;;
     free_heap <- ESP_getFreeHeap ;;
     LOG_D "Free heap: %d, HomeKit clients: %d" [ArgInt free_heap; ArgInt connected_clients]
   else ret tt).

(** ** Running the sketch: one [Env] per pass of [loop()] *)

Fixpoint run (envs : list Env) (w : World) : World * list (list Event) :=
  match envs with
  | [] => (w, [])
  | env :: rest =>
      let r := my_homekit_loop env w in
      let '(w', evs) := run rest (world_of r) in
      (w', events_of r :: evs)
  end.

(** *** Observations on the events of one pass *)

Definition is_report_event (ev : Event) : bool :=
  match ev with
  | EvNotify cha_occupancy_detected _ => true
  | _ => false
  end.

(** How many times the report ran in a pass: every run of [my_homekit_report]
    notifies the occupancy characteristic exactly once. *)
Definition report_count (evs : list Event) : nat :=
  List.length (List.filter is_report_event evs).

Definition report_fired (evs : list Event) : bool :=
  List.existsb is_report_event evs.

Definition is_heap_log (ev : Event) : bool :=
  match ev with
  | EvLog fmt _ => String.eqb fmt "Free heap: %d, HomeKit clients: %d"
  | _ => false
  end.

Definition heap_log_fired (evs : list Event) : bool :=
  List.existsb is_heap_log evs.

Definition is_sensor_read (ev : Event) : bool :=
  match ev with
  | EvGetTemperature | EvGetHumidity | EvDigitalRead _ => true
  | _ => false
  end.

Definition is_notify (ev : Event) : bool :=
  match ev with
  | EvNotify _ _ => true
  | _ => false
  end.

Definition notifications (evs : list Event) : list Event := List.filter is_notify evs.


Definition characteristic_eqb (a b : characteristic) : bool :=
  match a, b with
  | cha_occupancy_detected, cha_occupancy_detected
  | cha_temperature, cha_temperature
  | cha_humidity, cha_humidity => true
  | _, _ => false
  end.

(** The notifications of one characteristic, in order. *)
Definition notifies (c : characteristic) (ev : Event) : bool :=
  match ev with
  | EvNotify c' _ => characteristic_eqb c c'
  | _ => false
  end.

Definition notified (c : characteristic) (evs : list Event) : list Event :=
  List.filter (notifies c) evs.

Definition is_digital_write (ev : Event) : bool :=
  match ev with
  | EvDigitalWrite _ _ => true
  | _ => false
  end.

(** The test of line 123 and the value of line 119, as functions of what the
    outside world answers. *)
Definition occupied (env : Env) : bool := bool_of_int (env_occupancy_pin env).

Definition dht_failed (env : Env) : bool :=
  FP.isnan (env_humidity env) || FP.isnan (calibrated (env_temperature env)).

(** The gates of lines 100 and 105. *)
Definition report_due (env : Env) (w : World) : bool := env_millis env >? next_report_millis w.
Definition heap_due (env : Env) (w : World) : bool := env_millis env >? next_heap_millis w.

(** The world the report leaves behind when it runs on a pass: line 102 has
    already moved the deadline when line 103 calls it. *)
Definition after_report (env : Env) (w : World) : World :=
  world_of (my_homekit_report env
    (set_next_report_millis (UInt32.add (env_millis env) REPORTING_TIME_MS) w)).

(** The events of the two guarded blocks. *)
Definition report_events (env : Env) : list Event :=
  [EvGetTemperature; EvGetHumidity; EvDigitalRead OCCUPANCY_SENSOR_PIN;
   EvDigitalWrite D0 (if occupied env then HIGH else LOW)]
  ++ (if dht_failed env then
        [EvSerialPrintln "Failed to read from DHT sensor!"]
      else
        [EvNotify cha_temperature (float_value (calibrated (env_temperature env)));
         EvNotify cha_humidity (float_value (env_humidity env));
         EvLog "Temp (C): %.1f" [ArgFloat (calibrated (env_temperature env))];
         EvLog "Hum (percent): %.0f" [ArgFloat (env_humidity env)]])
  ++ [EvNotify cha_occupancy_detected (bool_value (occupied env));
      EvLog "Occupancy sensor is: %s" [ArgStr (if occupied env then "active" else "inactive")]].

Definition heap_events (env : Env) : list Event :=
  [EvClientsCount; EvGetFreeHeap;
   EvLog "Free heap: %d, HomeKit clients: %d" [ArgInt (env_free_heap env); ArgInt (env_clients env)]].

(** A pass on which no 32-bit addition of the report interval overflows. *)
Definition no_overflow (env : Env) : Prop :=
  0 <= env_millis env /\ env_millis env + REPORTING_TIME_MS <= UInt32.max_value.

(** A pass on which the 32-bit addition of the heap-log interval does not
    overflow. *)
Definition heap_no_overflow (env : Env) : Prop :=
  0 <= env_millis env /\ env_millis env + 5 * 1000 <= UInt32.max_value.

(** The calls of the heap block (lines 107-110). *)
Definition is_heap_event (ev : Event) : bool :=
  match ev with
  | EvClientsCount | EvGetFreeHeap => true
  | _ => is_heap_log ev
  end.

Definition is_poll (ev : Event) : bool :=
  match ev with
  | EvHomekitLoop => true
  | _ => false
  end.

Definition is_clock_read (ev : Event) : bool :=
  match ev with
  | EvMillis => true
  | _ => false
  end.

(** ** [setup], [loop] and the two setup helpers (lines 61-71, 86-95)

    These functions only call out: the serial port, the Wi-Fi helper of
    wifi_info.h, the pin configuration, the HomeKit server and the DHT
    driver.  Their calls are recorded in a wider event type that embeds the
    calls of a pass. *)

Inductive PinMode : Type := INPUT | OUTPUT.

(** [DHTesp::DHTTYPE] after expansion of [#define DHTTYPE DHT11]. *)
Inductive DHT_MODEL : Type := DHT11.
Definition DHTTYPE : DHT_MODEL := DHT11.

Inductive SketchEvent : Type :=
| EvSerialBegin (baud : Z)                  (* Serial.begin(baud) *)
| EvWifiConnect                             (* wifi_connect() *)
| EvPinMode (p : Pin) (m : PinMode)         (* pinMode(p, m) *)
| EvHomekitSetup                            (* arduino_homekit_setup(&config) *)
| EvDhtSetup (p : Pin) (model : DHT_MODEL)  (* dht.setup(p, model) *)
| EvDelay (ms : Z)                          (* delay(ms) *)
| EvPass (ev : Event).                      (* a call made inside my_homekit_loop() *)

Definition my_homekit_setup : list SketchEvent :=
  [EvPinMode OCCUPANCY_SENSOR_PIN INPUT;
   EvPinMode D0 OUTPUT;
   EvHomekitSetup].

Definition my_dht_setup : list SketchEvent :=
  [EvDhtSetup DHTPIN DHTTYPE].

Definition setup : list SketchEvent :=
  [EvSerialBegin 115200; EvWifiConnect] ++ my_homekit_setup ++ my_dht_setup.

Definition loop (env : Env) (w : World) : World * list SketchEvent :=
  let r := my_homekit_loop env w in
  (world_of r, List.map EvPass (events_of r) ++ [EvDelay 10]).

(** The Arduino runtime: [setup()] once, then [loop()] again and again; one
    [Env] per iteration. *)
Fixpoint loops (envs : list Env) (w : World) : World * list SketchEvent :=
  match envs with
  | [] => (w, [])
  | env :: rest =>
      let '(w1, evs1) := loop env w in
      let '(w2, evs2) := loops rest w1 in
      (w2, evs1 ++ evs2)
  end.

Definition sketch (envs : list Env) (t0 h0 : FP.float) (o0 : bool) : list SketchEvent :=
  setup ++ snd (loops envs (initial_world t0 h0 o0)).

(** What a call of the sketch needs to have been set up before it. *)
Definition requires (ev : SketchEvent) : list SketchEvent :=
  match ev with
  | EvPass (EvDigitalRead p) => [EvPinMode p INPUT]
  | EvPass (EvDigitalWrite p _) => [EvPinMode p OUTPUT]
  | EvPass EvGetTemperature | EvPass EvGetHumidity => [EvDhtSetup DHTPIN DHTTYPE]
  | EvPass EvHomekitLoop | EvPass (EvNotify _ _) | EvPass EvClientsCount => [EvHomekitSetup]
  | EvPass (EvSerialPrintln _) | EvPass (EvLog _ _) => [EvSerialBegin 115200]
  | _ => []
  end.

(** Structural equality of two floats, as a test. *)
Definition spec_float_eqb (x y : spec_float) : bool :=
  match x, y with
  | S754_zero s, S754_zero s' => Bool.eqb s s'
  | S754_infinity s, S754_infinity s' => Bool.eqb s s'
  | S754_nan, S754_nan => true
  | S754_finite s m e, S754_finite s' m' e' =>
      Bool.eqb s s' && (m =? m')%positive && (e =? e')
  | _, _ => false
  end.

(** The calls of the passes inside a trace of the whole sketch, and its
    [delay] calls. *)
Definition pass_events (evs : list SketchEvent) : list Event :=
  List.flat_map (fun ev => match ev with EvPass e => [e] | _ => [] end) evs.

Definition is_delay (ev : SketchEvent) : bool :=
  match ev with
  | EvDelay _ => true
  | _ => false
  end.



(** * Properties *)

(** ** Floating point: the calibration neither creates nor hides a NaN *)

Section RoundingNeverNaN.
Variables prec emax : Z.

Lemma shr_1_nonneg (mrs : shr_record) : 0 <= shr_m mrs -> 0 <= shr_m (shr_1 mrs).
Proof.
  destruct mrs as [m r s]; simpl.
  destruct m as [|[p|p|]|[p|p|]]; simpl; lia.
Qed.

Lemma iter_shr_1_nonneg (p : positive) :
  forall mrs, 0 <= shr_m mrs -> 0 <= shr_m (iter_pos shr_1 p mrs).
Proof.
  induction p as [p IH|p IH|]; intros mrs H; simpl.
  - apply IH, IH, shr_1_nonneg, H.
  - apply IH, IH, H.
  - apply shr_1_nonneg, H.
Qed.

Lemma shr_nonneg mrs e n : 0 <= shr_m mrs -> 0 <= shr_m (fst (shr mrs e n)).
Proof.
  intros H. destruct n; simpl; auto using iter_shr_1_nonneg.
Qed.

Lemma shr_fexp_nonneg m e l : 0 <= m -> 0 <= shr_m (fst (shr_fexp prec emax m e l)).
Proof.
  intros H. unfold shr_fexp. apply shr_nonneg.
  destruct l as [|[ | | ]]; simpl; exact H.
Qed.

Lemma round_nearest_even_nonneg m l : 0 <= m -> 0 <= round_nearest_even m l.
Proof.
  intros H. destruct l as [|[ | | ]]; simpl; try lia.
  destruct (Z.even m); lia.
Qed.

Lemma binary_round_aux_isnan sx mx ex lx :
  0 <= mx -> FP.isnan (binary_round_aux prec emax sx mx ex lx) = false.
Proof.
  intros H. unfold binary_round_aux.
  pose proof (shr_fexp_nonneg mx ex lx H) as H1.
  destruct (shr_fexp prec emax mx ex lx) as [mrs1 e1]; simpl in H1.
  pose proof (shr_fexp_nonneg _ e1 loc_Exact
                (round_nearest_even_nonneg _ (loc_of_shr_record mrs1) H1)) as H2.
  destruct (shr_fexp prec emax _ e1 loc_Exact) as [mrs2 e2]; simpl in H2.
  destruct (shr_m mrs2) as [|m|m]; simpl; try reflexivity; try lia.
  destruct (e2 <=? emax - prec); reflexivity.
Qed.

Lemma binary_round_isnan sx mx ex :
  FP.isnan (binary_round prec emax sx mx ex) = false.
Proof.
  unfold binary_round.
  destruct (shl_align mx ex _) as [mz ez].
  apply binary_round_aux_isnan. lia.
Qed.

Lemma binary_normalize_isnan m e szero :
  FP.isnan (binary_normalize prec emax m e szero) = false.
Proof.
  destruct m; simpl; auto using binary_round_isnan.
Qed.
End RoundingNeverNaN.

Lemma to_double_isnan x : FP.isnan (FP.to_double x) = FP.isnan x.
Proof. destruct x; simpl; auto using binary_round_isnan. Qed.

Lemma to_float_isnan x : FP.isnan (FP.to_float x) = FP.isnan x.
Proof. destruct x; simpl; auto using binary_round_isnan. Qed.

Lemma lit_3_0_value : FP.lit_3_0 = S754_finite false 6755399441055744 (-51).
Proof. reflexivity. Qed.

Lemma dsub_lit_isnan x : FP.isnan (FP.dsub x FP.lit_3_0) = FP.isnan x.
Proof.
  rewrite lit_3_0_value. unfold FP.dsub.
  destruct x as [s|s| |s m e]; try reflexivity.
  unfold SFsub. apply binary_normalize_isnan.
Qed.

Lemma calibrated_isnan raw : FP.isnan (calibrated raw) = FP.isnan raw.
Proof.
  unfold calibrated.
  rewrite to_float_isnan, dsub_lit_isnan, to_double_isnan. reflexivity.
Qed.

Lemma dht_failed_spec env :
  dht_failed env = FP.isnan (env_temperature env) || FP.isnan (env_humidity env).
Proof.
  unfold dht_failed. rewrite calibrated_isnan. apply orb_comm.
Qed.

(** ** What one call of [my_homekit_report] does *)

Lemma my_homekit_report_eq env w :
  my_homekit_report env w =
  (mkSample (calibrated (env_temperature env)) (env_humidity env) (occupied env),
   set_occupancy_value (occupied env)
     (if dht_failed env then w
      else set_humidity_value (env_humidity env)
             (set_temperature_value (calibrated (env_temperature env)) w)),
   report_events env).
Proof.
  unfold my_homekit_report, report_events, dht_failed, occupied.
  unfold bind, dht_getTemperature, dht_getHumidity, digitalRead, call; cbn.
  destruct (FP.isnan (env_humidity env) || FP.isnan (calibrated (env_temperature env)));
    reflexivity.
Qed.

Lemma report_keeps_deadlines env w :
  next_report_millis (world_of (my_homekit_report env w)) = next_report_millis w /\
  next_heap_millis (world_of (my_homekit_report env w)) = next_heap_millis w.
Proof.
  rewrite my_homekit_report_eq. unfold world_of; cbn.
  destruct (dht_failed env); split; reflexivity.
Qed.

(** ** What one pass of [my_homekit_loop] does *)

Lemma my_homekit_loop_eq env w :
  my_homekit_loop env w =
  (tt,
   (let w1 := if report_due env w then after_report env w else w in
    if heap_due env w
    then set_next_heap_millis (UInt32.add (env_millis env) (5 * 1000)) w1 else w1),
   [EvHomekitLoop; EvMillis]
     ++ (if report_due env w then report_events env else [])
     ++ (if heap_due env w then heap_events env else [])).
Proof.
  unfold my_homekit_loop, after_report, report_due, heap_due, heap_events.
  unfold bind.
  cbn [arduino_homekit_loop emit millis call load].
  destruct (env_millis env >? next_report_millis w) eqn:Hr.
  - cbn [store]. rewrite my_homekit_report_eq. unfold world_of.
    cbn [fst snd ret next_heap_millis set_occupancy_value].
    assert (Hh : next_heap_millis
                   (if dht_failed env
                    then set_next_report_millis (UInt32.add (env_millis env) REPORTING_TIME_MS) w
                    else set_humidity_value (env_humidity env)
                           (set_temperature_value (calibrated (env_temperature env))
                              (set_next_report_millis
                                 (UInt32.add (env_millis env) REPORTING_TIME_MS) w)))
                 = next_heap_millis w)
      by (destruct (dht_failed env); reflexivity).
    rewrite Hh.
    destruct (env_millis env >? next_heap_millis w);
      cbn [arduino_homekit_connected_clients_count ESP_getFreeHeap LOG_D call emit store ret];
      rewrite ?app_nil_r; reflexivity.
  - cbn [ret].
    destruct (env_millis env >? next_heap_millis w);
      cbn [arduino_homekit_connected_clients_count ESP_getFreeHeap LOG_D call emit store ret];
      reflexivity.
Qed.

Lemma after_report_eq env w :
  after_report env w =
  set_occupancy_value (occupied env)
    (let w1 := set_next_report_millis (UInt32.add (env_millis env) REPORTING_TIME_MS) w in
     if dht_failed env then w1
     else set_humidity_value (env_humidity env)
            (set_temperature_value (calibrated (env_temperature env)) w1)).
Proof. unfold after_report. rewrite my_homekit_report_eq. reflexivity. Qed.

(** On a pass that reports, the heap block adds no notification, pin write
    or characteristic write to what [my_homekit_report] did. *)
Lemma report_pass_eq env w :
  report_due env w = true ->
  let r := my_homekit_loop env w in
  temperature_value (world_of r) = temperature_value (after_report env w) /\
  humidity_value (world_of r) = humidity_value (after_report env w) /\
  occupancy_value (world_of r) = occupancy_value (after_report env w) /\
  notifications (events_of r) = notifications (report_events env) /\
  List.filter is_digital_write (events_of r) = List.filter is_digital_write (report_events env) /\
  (forall c, notified c (events_of r) = notified c (report_events env)).
Proof.
  intros Hdue r. subst r. rewrite my_homekit_loop_eq, Hdue.
  unfold world_of, events_of, notifications, notified; cbn [fst snd].
  repeat split; try (destruct (heap_due env w); reflexivity);
    try intros c; cbn [app filter is_notify is_digital_write notifies];
    rewrite !filter_app; destruct (heap_due env w); cbn; rewrite ?app_nil_r; reflexivity.
Qed.

Ltac report_cases env :=
  unfold report_events, notifications, notified;
  rewrite ?after_report_eq; rewrite ?dht_failed_spec;
  destruct (FP.isnan (env_temperature env)), (FP.isnan (env_humidity env));
  cbn.

(** ** Sanity: the calibration on the readings a DHT11 can deliver *)

Lemma calibrated_21 : calibrated (FP.float_of_Z 21) = FP.float_of_Z 18.
Proof. reflexivity. Qed.

Lemma calibrated_whole_degrees :
  forall n : nat, (n <= 60)%nat ->
    calibrated (FP.float_of_Z (Z.of_nat n)) = FP.float_of_Z (Z.of_nat n - 3).
Proof.
  assert (H : forallb (fun n => match calibrated (FP.float_of_Z (Z.of_nat n)),
                                      FP.float_of_Z (Z.of_nat n - 3) with
                                | S754_finite s m e, S754_finite s' m' e' =>
                                    Bool.eqb s s' && (m =? m')%positive && (e =? e')
                                | S754_zero s, S754_zero s' => Bool.eqb s s'
                                | _, _ => false
                                end) (seq 0 61) = true) by (vm_compute; reflexivity).
  rewrite forallb_forall in H.
  intros n Hn. specialize (H n). rewrite in_seq in H. specialize (H ltac:(lia)).
  destruct (calibrated _) as [s|s| |s m e], (FP.float_of_Z (_ - 3)) as [s'|s'| |s' m' e'];
    try discriminate.
  - apply Bool.eqb_prop in H. congruence.
  - apply andb_prop in H as [H He]. apply andb_prop in H as [Hs Hm].
    apply Bool.eqb_prop in Hs. apply Pos.eqb_eq in Hm. apply Z.eqb_eq in He. congruence.
Qed.

(** ** Claims about [my_homekit_report] *)

(** C1. On every pass that reports: when the temperature read or the humidity
    read is not-a-number, the temperature and humidity characteristics keep
    their values and are not notified on that pass; the occupancy
    characteristic is written and notified on that pass whether or not the
    sensor read succeeded. *)
Theorem C1_failed_read_skips_environment_not_occupancy env w :
  report_due env w = true ->
  let r := my_homekit_loop env w in
  let b := bool_of_int (env_occupancy_pin env) in
  (FP.isnan (env_temperature env) = true \/ FP.isnan (env_humidity env) = true ->
     temperature_value (world_of r) = temperature_value w /\
     humidity_value (world_of r) = humidity_value w /\
     notified cha_temperature (events_of r) = [] /\
     notified cha_humidity (events_of r) = []) /\
  occupancy_value (world_of r) = b /\
  notified cha_occupancy_detected (events_of r)
    = [EvNotify cha_occupancy_detected (bool_value b)].
Proof.
  intros Hdue r b.
  destruct (report_pass_eq env w Hdue) as (Ht & Hh & Ho & _ & _ & Hn).
  fold r in Ht, Hh, Ho, Hn. rewrite Ht, Hh, Ho, !Hn. subst b. fold (occupied env).
  split.
  - intros Hnan. report_cases env; try (repeat split; reflexivity).
    destruct Hnan; discriminate.
  - report_cases env; split; reflexivity.
Qed.

Lemma C1_witness :
  let env := mkEnv 1 FP.NAN (FP.float_of_Z 20) HIGH 30000 1 in
  let w := initial_world (FP.float_of_Z 25) (FP.float_of_Z 50) false in
  let r := my_homekit_loop env w in
  (temperature_value (world_of r) = FP.float_of_Z 25 /\
   humidity_value (world_of r) = FP.float_of_Z 50 /\
   notified cha_temperature (events_of r) = [] /\
   notified cha_humidity (events_of r) = []) /\
  occupancy_value (world_of r) = true /\
  notified cha_occupancy_detected (events_of r)
    = [EvNotify cha_occupancy_detected (bool_value true)].
Proof.
  intros env w r.
  destruct (C1_failed_read_skips_environment_not_occupancy env w eq_refl) as [Hskip Hocc].
  split.
  - apply Hskip. left. reflexivity.
  - exact Hocc.
Defined.

(** C4. On every pass that reports with both reads valid, the temperature
    characteristic is written and notified once with the raw reading minus
    the literal 3.0, and the humidity characteristic once with the raw
    reading itself.  The value depends on the current reading alone: a
    second reporting pass with the same raw temperature publishes the same
    value again, not a twice-corrected one. *)
Theorem C4_temperature_minus_offset_humidity_raw env w :
  report_due env w = true ->
  FP.isnan (env_temperature env) = false ->
  FP.isnan (env_humidity env) = false ->
  let r := my_homekit_loop env w in
  let published := FP.to_float (FP.dsub (FP.to_double (env_temperature env)) FP.lit_3_0) in
  temperature_value (world_of r) = published /\
  notified cha_temperature (events_of r) = [EvNotify cha_temperature (float_value published)] /\
  humidity_value (world_of r) = env_humidity env /\
  notified cha_humidity (events_of r)
    = [EvNotify cha_humidity (float_value (env_humidity env))] /\
  (forall env',
      report_due env' (world_of r) = true ->
      env_temperature env' = env_temperature env ->
      FP.isnan (env_humidity env') = false ->
      let r' := my_homekit_loop env' (world_of r) in
      temperature_value (world_of r') = published /\
      notified cha_temperature (events_of r')
        = [EvNotify cha_temperature (float_value published)]).
Proof.
  intros Hdue Ht Hh r published.
  assert (Hone : forall e v, report_due e v = true ->
            FP.isnan (env_temperature e) = false -> FP.isnan (env_humidity e) = false ->
            temperature_value (world_of (my_homekit_loop e v)) = calibrated (env_temperature e) /\
            notified cha_temperature (events_of (my_homekit_loop e v))
              = [EvNotify cha_temperature (float_value (calibrated (env_temperature e)))] /\
            humidity_value (world_of (my_homekit_loop e v)) = env_humidity e /\
            notified cha_humidity (events_of (my_homekit_loop e v))
              = [EvNotify cha_humidity (float_value (env_humidity e))]).
  { intros e v Hd He1 He2.
    destruct (report_pass_eq e v Hd) as (H1 & H2 & _ & _ & _ & Hn).
    cbv zeta in H1, H2, Hn. rewrite H1, H2, !Hn.
    unfold report_events, notified. rewrite after_report_eq, dht_failed_spec, He1, He2.
    cbn. repeat split; reflexivity. }
  destruct (Hone env w Hdue Ht Hh) as (H1 & H2 & H3 & H4).
  fold r in H1, H2, H3, H4. change (calibrated (env_temperature env)) with published in H1, H2.
  split; [exact H1|]. split; [exact H2|]. split; [exact H3|]. split; [exact H4|].
  intros env' Hdue' Hsame Hh' r'.
  destruct (Hone env' (world_of r) Hdue') as (H5 & H6 & _); [congruence | assumption |].
  fold r' in H5, H6. rewrite H5, H6, Hsame. split; reflexivity.
Qed.

Lemma C4_witness :
  let env := mkEnv 1 (FP.float_of_Z 21) (FP.float_of_Z 40) LOW 30000 1 in
  let w := initial_world (FP.float_of_Z 0) (FP.float_of_Z 0) false in
  temperature_value (world_of (my_homekit_loop env w)) = FP.float_of_Z 18 /\
  humidity_value (world_of (my_homekit_loop env w)) = FP.float_of_Z 40.
Proof.
  intros env w.
  destruct (C4_temperature_minus_offset_humidity_raw env w eq_refl eq_refl eq_refl)
    as (Ht & _ & Hh & _).
  split; [exact Ht | exact Hh].
Defined.

(** C7. On every pass that reports, the occupancy pin is read, and the
    occupancy characteristic is written and notified with the boolean of
    that reading: false when the pin reads 0, true when it reads anything
    else.  Pin D0 is driven once, to 1 (HIGH) when that boolean is true and
    to 0 (LOW) when it is false, so the characteristic and the output pin
    carry the same value. *)
Theorem C7_occupancy_mirrors_input_pin env w :
  report_due env w = true ->
  let r := my_homekit_loop env w in
  let b := negb (env_occupancy_pin env =? 0) in
  In (EvDigitalRead D1) (events_of r) /\
  occupancy_value (world_of r) = b /\
  notified cha_occupancy_detected (events_of r)
    = [EvNotify cha_occupancy_detected (bool_value b)] /\
  List.filter is_digital_write (events_of r) = [EvDigitalWrite D0 (if b then 1 else 0)] /\
  (env_occupancy_pin env = 0 ->
     occupancy_value (world_of r) = false /\
     List.filter is_digital_write (events_of r) = [EvDigitalWrite D0 0]) /\
  (env_occupancy_pin env <> 0 ->
     occupancy_value (world_of r) = true /\
     List.filter is_digital_write (events_of r) = [EvDigitalWrite D0 1]).
Proof.
  intros Hdue r b.
  destruct (report_pass_eq env w Hdue) as (_ & _ & Ho & _ & Hw & Hn).
  fold r in Ho, Hw, Hn. rewrite Ho, Hw, Hn.
  assert (Hb : occupied env = b) by reflexivity.
  assert (Hval : occupancy_value (after_report env w) = b)
    by (rewrite after_report_eq; exact Hb).
  assert (Hnot : notified cha_occupancy_detected (report_events env)
                 = [EvNotify cha_occupancy_detected (bool_value b)]).
  { unfold notified, report_events. rewrite Hb. destruct (dht_failed env); reflexivity. }
  assert (Hpin : List.filter is_digital_write (report_events env)
                 = [EvDigitalWrite D0 (if b then 1 else 0)]).
  { unfold report_events. rewrite Hb. destruct (dht_failed env); reflexivity. }
  rewrite Hval, Hnot, Hpin.
  split.
  { subst r. rewrite my_homekit_loop_eq, Hdue. unfold events_of, report_events. cbn.
    right; right; right; right; left. reflexivity. }
  split; [reflexivity|]. split; [reflexivity|]. split; [reflexivity|].
  subst b. split; intros Hp.
  - rewrite Hp. split; reflexivity.
  - apply Z.eqb_neq in Hp. rewrite Hp. split; reflexivity.
Qed.

Lemma C7_witness :
  let e pin := mkEnv 1 (FP.float_of_Z 21) (FP.float_of_Z 40) pin 30000 1 in
  let w_on := initial_world (FP.float_of_Z 0) (FP.float_of_Z 0) true in
  let w_off := initial_world (FP.float_of_Z 0) (FP.float_of_Z 0) false in
  (occupancy_value (world_of (my_homekit_loop (e 0) w_on)) = false /\
   notified cha_occupancy_detected (events_of (my_homekit_loop (e 0) w_on))
     = [EvNotify cha_occupancy_detected (bool_value false)] /\
   List.filter is_digital_write (events_of (my_homekit_loop (e 0) w_on))
     = [EvDigitalWrite D0 0]) /\
  (occupancy_value (world_of (my_homekit_loop (e 1) w_off)) = true /\
   notified cha_occupancy_detected (events_of (my_homekit_loop (e 1) w_off))
     = [EvNotify cha_occupancy_detected (bool_value true)] /\
   List.filter is_digital_write (events_of (my_homekit_loop (e 1) w_off))
     = [EvDigitalWrite D0 1]).
Proof.
  intros e w_on w_off. split.
  - destruct (C7_occupancy_mirrors_input_pin (e 0) w_on eq_refl) as (_ & Ho & Hn & Hw & _).
    split; [exact Ho|]. split; [exact Hn | exact Hw].
  - destruct (C7_occupancy_mirrors_input_pin (e 1) w_off eq_refl) as (_ & Ho & Hn & Hw & _).
    split; [exact Ho|]. split; [exact Hn | exact Hw].
Defined.

(** C8. [my_homekit_report] is a function of the three sensor values alone.
    Two runs that see the same temperature, humidity and occupancy pin
    compute the same three locals and make the same calls with the same
    payloads, in particular the same notifications, whatever the clock, the
    free heap, the client count and the worlds they start from.  Run twice
    in a row on the same sensor values, the second run notifies what the
    first did and leaves the world as the first left it. *)
Theorem C8_report_deterministic_in_sensor_state env env' w w' :
  env_temperature env = env_temperature env' ->
  env_humidity env = env_humidity env' ->
  env_occupancy_pin env = env_occupancy_pin env' ->
  let r := my_homekit_report env w in
  let r' := my_homekit_report env' w' in
  let r2 := my_homekit_report env' (world_of r) in
  result r = result r' /\
  notifications (events_of r) = notifications (events_of r') /\
  events_of r = events_of r' /\
  result r = result r2 /\
  notifications (events_of r) = notifications (events_of r2) /\
  world_of r2 = world_of r.
Proof.
  intros Ht Hh Hp. cbv zeta. rewrite !my_homekit_report_eq.
  unfold result, world_of, events_of; cbn [fst snd].
  assert (Hocc : occupied env' = occupied env) by (unfold occupied; rewrite Hp; reflexivity).
  assert (Hfail : dht_failed env' = dht_failed env)
    by (unfold dht_failed; rewrite Ht, Hh; reflexivity).
  assert (Hev : report_events env' = report_events env)
    by (unfold report_events; rewrite Hocc, Hfail, Ht, Hh; reflexivity).
  rewrite Hev, Hocc, Hfail, <- Ht, <- Hh.
  split; [reflexivity|]. split; [reflexivity|]. split; [reflexivity|].
  split; [reflexivity|]. split; [reflexivity|].
  destruct (dht_failed env); reflexivity.
Qed.

Lemma C8_witness :
  let env := mkEnv 1 (FP.float_of_Z 21) (FP.float_of_Z 40) HIGH 30000 1 in
  let env' := mkEnv 987654 (FP.float_of_Z 21) (FP.float_of_Z 40) HIGH 512 0 in
  let w := initial_world (FP.float_of_Z 0) (FP.float_of_Z 0) false in
  let w' := mkWorld 990000 989000 (FP.float_of_Z 7) (FP.float_of_Z 9) true in
  result (my_homekit_report env w) = result (my_homekit_report env' w') /\
  notifications (events_of (my_homekit_report env w))
    = notifications (events_of (my_homekit_report env' w')).
Proof.
  intros env env' w w'.
  destruct (C8_report_deterministic_in_sensor_state env env' w w' eq_refl eq_refl eq_refl)
    as (Hres & Hnot & _).
  split; [exact Hres | exact Hnot].
Defined.

Lemma report_never_notifies_nan_temperature env w v :
  In (EvNotify cha_temperature (float_value v)) (events_of (my_homekit_report env w)) ->
  FP.isnan v = false.
Proof.
  rewrite my_homekit_report_eq. unfold events_of, report_events; cbn [snd].
  destruct (dht_failed env) eqn:Hd; cbn; intros Hin;
    repeat (destruct Hin as [Hin|Hin]; try discriminate Hin); try contradiction.
  injection Hin as <-. rewrite dht_failed_spec in Hd. rewrite calibrated_isnan.
  apply orb_false_elim in Hd. tauto.
Qed.

(** C10. The test of line 123 looks at the temperature after the subtraction.
    A failed temperature read is still seen as not-a-number there, so the
    pass takes the skip branch: the failure line is printed, the temperature
    characteristic is neither written nor notified.  No run of the report
    ever notifies a not-a-number temperature. *)
Theorem C10_failed_temperature_read_is_detected env w :
  FP.isnan (env_temperature env) = true ->
  let r := my_homekit_report env w in
  temp (result r) = FP.to_float (FP.dsub (FP.to_double (env_temperature env)) FP.lit_3_0) /\
  FP.isnan (temp (result r)) = true /\
  In (EvSerialPrintln "Failed to read from DHT sensor!") (events_of r) /\
  notified cha_temperature (events_of r) = [] /\
  temperature_value (world_of r) = temperature_value w /\
  (forall env0 w0 v,
      In (EvNotify cha_temperature (float_value v)) (events_of (my_homekit_report env0 w0)) ->
      FP.isnan v = false).
Proof.
  intros Hnan r. subst r. rewrite my_homekit_report_eq.
  unfold result, world_of, events_of; cbn [fst snd temp].
  split; [reflexivity|]. split; [rewrite calibrated_isnan; exact Hnan|].
  assert (Hf : dht_failed env = true) by (rewrite dht_failed_spec, Hnan; reflexivity).
  unfold report_events, notified. rewrite Hf. cbn [app filter notifies characteristic_eqb In].
  split; [now right; right; right; right; left|].
  split; [reflexivity|]. split; [reflexivity|].
  exact report_never_notifies_nan_temperature.
Qed.

Lemma C10_witness :
  let env := mkEnv 1 FP.NAN (FP.float_of_Z 20) HIGH 30000 1 in
  let w := initial_world (FP.float_of_Z 25) (FP.float_of_Z 50) false in
  FP.isnan (temp (result (my_homekit_report env w))) = true /\
  notified cha_temperature (events_of (my_homekit_report env w)) = [] /\
  temperature_value (world_of (my_homekit_report env w)) = FP.float_of_Z 25.
Proof.
  intros env w.
  destruct (C10_failed_temperature_read_is_detected env w eq_refl) as (_ & Hn & _ & He & Hv & _).
  split; [exact Hn|]. split; [exact He | exact Hv].
Defined.

(** ** The two gates of [my_homekit_loop] *)

Lemma report_due_gt env w : report_due env w = true <-> env_millis env > next_report_millis w.
Proof. unfold report_due. rewrite Z.gtb_ltb, Z.ltb_lt. lia. Qed.

Lemma heap_due_gt env w : heap_due env w = true <-> env_millis env > next_heap_millis w.
Proof. unfold heap_due. rewrite Z.gtb_ltb, Z.ltb_lt. lia. Qed.

Lemma report_due_le env w : report_due env w = false <-> env_millis env <= next_report_millis w.
Proof. unfold report_due. rewrite Z.gtb_ltb, Z.ltb_ge. lia. Qed.

Lemma report_events_count env : report_count (report_events env) = 1%nat.
Proof. unfold report_events, report_count. destruct (dht_failed env); reflexivity. Qed.

Lemma report_count_loop env w :
  report_count (events_of (my_homekit_loop env w)) = if report_due env w then 1%nat else 0%nat.
Proof.
  rewrite my_homekit_loop_eq. unfold events_of, report_count; cbn [snd].
  rewrite !filter_app, !length_app.
  fold (report_count (if report_due env w then report_events env else [])).
  destruct (report_due env w), (heap_due env w);
    rewrite ?report_events_count; reflexivity.
Qed.

Lemma report_fired_count evs : report_fired evs = negb (Nat.eqb (report_count evs) 0).
Proof.
  unfold report_fired, report_count.
  induction evs as [|ev evs IH]; [reflexivity|].
  cbn [existsb filter]. destruct (is_report_event ev); [reflexivity|]. exact IH.
Qed.

Lemma report_fired_loop env w :
  report_fired (events_of (my_homekit_loop env w)) = report_due env w.
Proof.
  rewrite report_fired_count, report_count_loop. destruct (report_due env w); reflexivity.
Qed.

Lemma heap_log_fired_loop env w :
  heap_log_fired (events_of (my_homekit_loop env w)) = heap_due env w.
Proof.
  rewrite my_homekit_loop_eq. unfold events_of, heap_log_fired, report_events; cbn [snd].
  rewrite !existsb_app.
  destruct (report_due env w), (heap_due env w), (dht_failed env); reflexivity.
Qed.

Lemma next_report_millis_loop env w :
  next_report_millis (world_of (my_homekit_loop env w)) =
  if report_due env w then UInt32.add (env_millis env) REPORTING_TIME_MS
  else next_report_millis w.
Proof.
  rewrite my_homekit_loop_eq. unfold world_of; cbn [fst snd].
  rewrite after_report_eq.
  destruct (report_due env w), (heap_due env w), (dht_failed env); reflexivity.
Qed.

Lemma next_heap_millis_loop env w :
  next_heap_millis (world_of (my_homekit_loop env w)) =
  if heap_due env w then UInt32.add (env_millis env) (5 * 1000)
  else next_heap_millis w.
Proof.
  rewrite my_homekit_loop_eq. unfold world_of; cbn [fst snd].
  rewrite after_report_eq.
  destruct (report_due env w), (heap_due env w), (dht_failed env); reflexivity.
Qed.

Lemma add_no_overflow env :
  no_overflow env -> UInt32.add (env_millis env) REPORTING_TIME_MS = env_millis env + 2000.
Proof.
  unfold no_overflow, UInt32.add, UInt32.wrap, UInt32.max_value, UInt32.modulus, REPORTING_TIME_MS.
  intros [H0 H1]. apply Z.mod_small. lia.
Qed.

(** C2 (amended).  The report gate fires exactly when [now] is strictly
    greater than the stored deadline.  When it fires the deadline becomes
    [now + 2000] reduced modulo [2^32], and [my_homekit_report] runs in the
    world that already holds the new deadline.  When [now + 2000] fits in 32
    bits, a second evaluation with the same [now] does not fire. *)
Theorem C2_report_gate_and_deadline env w :
  let now := env_millis env in
  let r := my_homekit_loop env w in
  (report_fired (events_of r) = true <-> now > next_report_millis w) /\
  (now > next_report_millis w ->
     REPORTING_TIME_MS = 2000 /\
     next_report_millis (world_of r) = (now + 2000) mod 2 ^ 32 /\
     (let w1 := set_next_report_millis ((now + 2000) mod 2 ^ 32) w in
      next_report_millis w1 = (now + 2000) mod 2 ^ 32 /\
      exists rest,
        events_of r = [EvHomekitLoop; EvMillis] ++ events_of (my_homekit_report env w1) ++ rest /\
        report_count rest = 0%nat) /\
     (0 <= now -> now + 2000 <= UInt32.max_value ->
        report_fired (events_of (my_homekit_loop env (world_of r))) = false)).
Proof.
  intros now r. subst now r. split.
  - rewrite report_fired_loop. apply report_due_gt.
  - intros Hgt. pose proof (proj2 (report_due_gt env w) Hgt) as Hdue.
    split; [reflexivity|]. split.
    { rewrite next_report_millis_loop, Hdue. reflexivity. }
    split.
    { cbv zeta. split; [reflexivity|].
      exists (if heap_due env w then heap_events env else []).
      rewrite my_homekit_loop_eq, my_homekit_report_eq, Hdue. unfold events_of; cbn [snd].
      split; [reflexivity|]. destruct (heap_due env w); reflexivity. }
    intros H0 Hfit. rewrite report_fired_loop. apply report_due_le.
    rewrite next_report_millis_loop, Hdue.
    rewrite add_no_overflow by (unfold no_overflow, REPORTING_TIME_MS; lia). lia.
Qed.

Lemma C2_witness :
  let env := mkEnv 1 (FP.float_of_Z 21) (FP.float_of_Z 40) LOW 30000 1 in
  let w := initial_world (FP.float_of_Z 0) (FP.float_of_Z 0) false in
  next_report_millis (world_of (my_homekit_loop env w)) = 2001 /\
  report_fired (events_of (my_homekit_loop env (world_of (my_homekit_loop env w)))) = false.
Proof.
  intros env w.
  destruct (C2_report_gate_and_deadline env w) as [_ H].
  destruct (H eq_refl) as (_ & Hd & _ & Hagain).
  split.
  - exact Hd.
  - apply Hagain; unfold UInt32.max_value, UInt32.modulus; simpl; lia.
Defined.

(** C2 as stated fails near the top of the 32-bit range: at
    [now = 4294967295] with deadline [0] the gate fires, the deadline wraps
    to [1999], which is not [now + 2000], and a second evaluation with the
    same [now] fires again. *)
Lemma C2_counterexample :
  let env := mkEnv 4294967295 (FP.float_of_Z 21) (FP.float_of_Z 40) LOW 30000 1 in
  let w := initial_world (FP.float_of_Z 0) (FP.float_of_Z 0) false in
  let r := my_homekit_loop env w in
  UInt32.in_range (env_millis env) /\
  UInt32.in_range (next_report_millis w) /\
  env_millis env > next_report_millis w /\
  report_fired (events_of r) = true /\
  next_report_millis (world_of r) = 1999 /\
  next_report_millis (world_of r) <> env_millis env + 2000 /\
  report_fired (events_of (my_homekit_loop env (world_of r))) = true.
Proof.
  cbv zeta. unfold UInt32.in_range.
  repeat split; try (vm_compute; congruence).
Qed.

(** ** The heap log *)

Lemma heap_deadline_after_log env w :
  heap_due env w = true ->
  next_heap_millis (world_of (my_homekit_loop env w)) = (env_millis env + 5000) mod 2 ^ 32.
Proof. intros H. rewrite next_heap_millis_loop, H. reflexivity. Qed.

(** C3.  The sketch defines [SHOW_HEAP_MS] as 10000 but line 108 adds the
    literal [5 * 1000]: from the initial deadlines a pass at 1 ms logs and
    sets the next heap deadline to 5001, not 10001, and a pass at 5002 ms
    logs again, 5001 ms after the first line. *)
Theorem C3_heap_log_interval_is_5000_not_SHOW_HEAP_MS :
  let env1 := mkEnv 1 (FP.float_of_Z 21) (FP.float_of_Z 40) LOW 30000 1 in
  let env2 := mkEnv 5002 (FP.float_of_Z 21) (FP.float_of_Z 40) LOW 30000 1 in
  let w := initial_world (FP.float_of_Z 0) (FP.float_of_Z 0) false in
  let r1 := my_homekit_loop env1 w in
  let r2 := my_homekit_loop env2 (world_of r1) in
  SHOW_HEAP_MS = 10000 /\
  heap_log_fired (events_of r1) = true /\
  next_heap_millis (world_of r1) = 5001 /\
  next_heap_millis (world_of r1) <> env_millis env1 + SHOW_HEAP_MS /\
  heap_log_fired (events_of r2) = true /\
  env_millis env2 - env_millis env1 < SHOW_HEAP_MS.
Proof.
  cbv zeta. repeat split; try (vm_compute; congruence).
Qed.

(** C6.  On a pass where the heap deadline has elapsed and the report
    deadline has not, the calls made are the server poll and clock read that
    open every pass, then the client-count query, the free-heap query and
    the log line.  No sensor is read, nothing is notified, no pin is
    written, the three characteristic values and the report deadline are
    unchanged. *)
Theorem C6_heap_only_pass_leaves_report_alone env w :
  env_millis env > next_heap_millis w ->
  env_millis env <= next_report_millis w ->
  let r := my_homekit_loop env w in
  events_of r =
    [EvHomekitLoop; EvMillis; EvClientsCount; EvGetFreeHeap;
     EvLog "Free heap: %d, HomeKit clients: %d"
           [ArgInt (env_free_heap env); ArgInt (env_clients env)]] /\
  existsb is_sensor_read (events_of r) = false /\
  notifications (events_of r) = [] /\
  List.filter is_digital_write (events_of r) = [] /\
  temperature_value (world_of r) = temperature_value w /\
  humidity_value (world_of r) = humidity_value w /\
  occupancy_value (world_of r) = occupancy_value w /\
  next_report_millis (world_of r) = next_report_millis w /\
  world_of r = set_next_heap_millis ((env_millis env + 5000) mod 2 ^ 32) w.
Proof.
  intros Hheap Hrep r. subst r.
  apply heap_due_gt in Hheap. apply report_due_le in Hrep.
  rewrite my_homekit_loop_eq, Hheap, Hrep.
  unfold events_of, world_of, heap_events; cbn [fst snd app].
  repeat split.
Qed.

Lemma C6_witness :
  let env := mkEnv 5002 (FP.float_of_Z 21) (FP.float_of_Z 40) HIGH 30000 1 in
  let w := mkWorld 5001 6001 (FP.float_of_Z 18) (FP.float_of_Z 40) false in
  notifications (events_of (my_homekit_loop env w)) = [] /\
  existsb is_sensor_read (events_of (my_homekit_loop env w)) = false /\
  next_report_millis (world_of (my_homekit_loop env w)) = 6001.
Proof.
  intros env w.
  assert (H1 : env_millis env > next_heap_millis w) by reflexivity.
  assert (H2 : env_millis env <= next_report_millis w) by (simpl; lia).
  destruct (C6_heap_only_pass_leaves_report_alone env w H1 H2)
    as (_ & Hs & Hn & _ & _ & _ & _ & Hd & _).
  split; [exact Hn|]. split; [exact Hs | exact Hd].
Defined.

(** C9.  Both deadlines start at zero, so the first pass whose clock value
    is greater than zero runs the report and the heap log at once. *)
Theorem C9_first_positive_pass_reports_and_logs env t0 h0 o0 :
  0 < env_millis env ->
  let w := initial_world t0 h0 o0 in
  let r := my_homekit_loop env w in
  next_report_millis w = 0 /\
  next_heap_millis w = 0 /\
  report_fired (events_of r) = true /\
  heap_log_fired (events_of r) = true /\
  events_of r = [EvHomekitLoop; EvMillis] ++ report_events env ++ heap_events env.
Proof.
  intros Hpos w r. subst r.
  assert (Hr : report_due env w = true) by (apply report_due_gt; simpl; lia).
  assert (Hh : heap_due env w = true) by (apply heap_due_gt; simpl; lia).
  rewrite report_fired_loop, heap_log_fired_loop, my_homekit_loop_eq, Hr, Hh.
  repeat split.
Qed.

Lemma C9_witness :
  let env := mkEnv 1 (FP.float_of_Z 21) (FP.float_of_Z 40) LOW 30000 1 in
  let w := initial_world (FP.float_of_Z 0) (FP.float_of_Z 0) false in
  report_fired (events_of (my_homekit_loop env w)) = true /\
  heap_log_fired (events_of (my_homekit_loop env w)) = true.
Proof.
  intros env w.
  assert (H : 0 < env_millis env) by (simpl; lia).
  destruct (C9_first_positive_pass_reports_and_logs env (FP.float_of_Z 0) (FP.float_of_Z 0) false H)
    as (_ & _ & Hr & Hh & _).
  split; [exact Hr | exact Hh].
Defined.

(** ** Runs of several passes *)

Lemma run_cons env envs w :
  snd (run (env :: envs) w) =
  events_of (my_homekit_loop env w) :: snd (run envs (world_of (my_homekit_loop env w))).
Proof.
  cbn [run]. destruct (run envs (world_of (my_homekit_loop env w))). reflexivity.
Qed.

Lemma report_deadline_never_decreases env w :
  no_overflow env ->
  next_report_millis w <= next_report_millis (world_of (my_homekit_loop env w)).
Proof.
  intros Hno. rewrite next_report_millis_loop.
  destruct (report_due env w) eqn:Hdue; [|lia].
  apply report_due_gt in Hdue. rewrite add_no_overflow by assumption. lia.
Qed.

Lemma no_report_up_to_deadline envs :
  forall w D j env_j evs_j,
    Forall no_overflow envs ->
    D <= next_report_millis w ->
    nth_error envs j = Some env_j ->
    nth_error (snd (run envs w)) j = Some evs_j ->
    env_millis env_j <= D ->
    report_fired evs_j = false.
Proof.
  induction envs as [|env envs IH]; intros w D j env_j evs_j Hall HD Hj Hevs Hle.
  - destruct j; discriminate.
  - rewrite run_cons in Hevs. inversion Hall as [|? ? Hno Hrest]; subst.
    destruct j as [|j]; cbn [nth_error] in Hj, Hevs.
    + injection Hj as <-. injection Hevs as <-.
      rewrite report_fired_loop. apply report_due_le. lia.
    + apply (IH (world_of (my_homekit_loop env w)) D j env_j evs_j); auto.
      pose proof (report_deadline_never_decreases env w Hno). lia.
Qed.

(** C5 (amended).  Along any run of passes on which [now + 2000] fits in 32
    bits: if a report fires on a pass with clock value [t], no report fires
    on a later pass whose clock value is less than [t + 2000]; and on every
    pass of any run the report fires at most once. *)
Theorem C5_no_second_report_within_interval envs w :
  (Forall no_overflow envs ->
   forall i j env_i env_j evs_i evs_j,
     (i < j)%nat ->
     nth_error envs i = Some env_i ->
     nth_error envs j = Some env_j ->
     nth_error (snd (run envs w)) i = Some evs_i ->
     nth_error (snd (run envs w)) j = Some evs_j ->
     report_fired evs_i = true ->
     env_millis env_j < env_millis env_i + REPORTING_TIME_MS ->
     report_fired evs_j = false) /\
  Forall (fun evs => (report_count evs <= 1)%nat) (snd (run envs w)).
Proof.
  split.
  - revert w. induction envs as [|env envs IH];
      intros w Hall i j env_i env_j evs_i evs_j Hij Hi Hj Hei Hej Hfired Hlt.
    { destruct i; discriminate. }
    rewrite run_cons in Hei, Hej. inversion Hall as [|? ? Hno Hrest]; subst.
    destruct j as [|j]; [lia|]. cbn [nth_error] in Hj, Hej.
    destruct i as [|i]; cbn [nth_error] in Hi, Hei.
    + injection Hi as <-. injection Hei as <-.
      rewrite report_fired_loop in Hfired.
      apply (no_report_up_to_deadline envs (world_of (my_homekit_loop env w))
               (env_millis env + 2000) j env_j evs_j); auto.
      * rewrite next_report_millis_loop, Hfired, add_no_overflow by assumption. lia.
      * unfold REPORTING_TIME_MS in Hlt. lia.
    + apply (IH (world_of (my_homekit_loop env w)) Hrest i j env_i env_j evs_i evs_j);
        auto; lia.
  - revert w. induction envs as [|env envs IH]; intros w.
    + constructor.
    + rewrite run_cons. constructor; [|apply IH].
      rewrite report_count_loop. destruct (report_due env w); lia.
Qed.

Lemma C5_witness :
  let e t := mkEnv t (FP.float_of_Z 21) (FP.float_of_Z 40) LOW 30000 1 in
  let w := initial_world (FP.float_of_Z 0) (FP.float_of_Z 0) false in
  let envs := [e 1; e 2000] in
  Forall no_overflow envs /\
  report_fired (events_of (my_homekit_loop (e 1) w)) = true /\
  report_fired (events_of (my_homekit_loop (e 2000) (world_of (my_homekit_loop (e 1) w)))) = false.
Proof.
  intros e w envs.
  assert (Hall : Forall no_overflow envs).
  { repeat constructor; unfold UInt32.max_value, UInt32.modulus; simpl; lia. }
  assert (Hfired : report_fired (events_of (my_homekit_loop (e 1) w)) = true)
    by (vm_compute; reflexivity).
  split; [exact Hall|]. split; [exact Hfired|].
  destruct (C5_no_second_report_within_interval envs w) as [H _].
  assert (Hlt : (0 < 1)%nat) by lia.
  assert (Ht : env_millis (e 2000) < env_millis (e 1) + REPORTING_TIME_MS) by reflexivity.
  assert (H0 : nth_error (snd (run envs w)) 0 = Some (events_of (my_homekit_loop (e 1) w)))
    by (unfold envs; rewrite run_cons; reflexivity).
  assert (H1 : nth_error (snd (run envs w)) 1 =
               Some (events_of (my_homekit_loop (e 2000) (world_of (my_homekit_loop (e 1) w)))))
    by (unfold envs; rewrite !run_cons; reflexivity).
  exact (H Hall 0%nat 1%nat (e 1) (e 2000) _ _ Hlt eq_refl eq_refl H0 H1 Hfired Ht).
Defined.

(** C5 as stated fails when a report fires within 2000 ms of the top of the
    32-bit range, although the clock itself has not wrapped: the passes at
    4294966296 and 4294966306 both report, 10 ms apart. *)
Lemma C5_counterexample :
  let e t := mkEnv t (FP.float_of_Z 21) (FP.float_of_Z 40) LOW 30000 1 in
  let w := initial_world (FP.float_of_Z 0) (FP.float_of_Z 0) false in
  let clock := [4294966296; 4294966306] in
  Forall UInt32.in_range clock /\
  4294966296 < 4294966306 /\
  map report_fired (snd (run (map e clock) w)) = [true; true] /\
  4294966306 < 4294966296 + REPORTING_TIME_MS.
Proof.
  cbv zeta. split; [|split; [|split]].
  - repeat constructor; vm_compute; congruence.
  - reflexivity.
  - vm_compute. reflexivity.
  - reflexivity.
Qed.

(** * Further properties of the sketch *)

(** ** Single passes *)

Lemma heap_due_le env w : heap_due env w = false <-> env_millis env <= next_heap_millis w.
Proof. unfold heap_due. rewrite Z.gtb_ltb, Z.ltb_ge. lia. Qed.

Lemma report_events_no_heap env : List.filter is_heap_event (report_events env) = [].
Proof. unfold report_events. destruct (dht_failed env); reflexivity. Qed.

Lemma report_events_no_poll env :
  List.filter is_poll (report_events env) = [] /\
  List.filter is_clock_read (report_events env) = [].
Proof. unfold report_events. destruct (dht_failed env); split; reflexivity. Qed.

(** X1. A pass on which neither deadline has elapsed polls the server, reads
    the clock and does nothing else: the world is left exactly as it was.
    The comparison is strict, so a pass at the very deadline is idle. *)
Theorem X1_idle_pass_changes_nothing env w :
  env_millis env <= next_report_millis w ->
  env_millis env <= next_heap_millis w ->
  my_homekit_loop env w = (tt, w, [EvHomekitLoop; EvMillis]).
Proof.
  intros Hr Hh. apply report_due_le in Hr. apply heap_due_le in Hh.
  rewrite my_homekit_loop_eq, Hr, Hh. reflexivity.
Qed.

Lemma X1_witness :
  let env := mkEnv 0 (FP.float_of_Z 21) (FP.float_of_Z 40) HIGH 30000 1 in
  let w := initial_world (FP.float_of_Z 0) (FP.float_of_Z 0) false in
  my_homekit_loop env w = (tt, w, [EvHomekitLoop; EvMillis]).
Proof.
  intros env w.
  apply (X1_idle_pass_changes_nothing env w); simpl; lia.
Defined.

(** X2. On a pass where the report deadline has elapsed and the heap deadline
    has not, the heap block is skipped: no client-count query, no free-heap
    query, no heap log line, and the heap deadline keeps its value. *)
Theorem X2_report_only_pass_leaves_heap_alone env w :
  env_millis env > next_report_millis w ->
  env_millis env <= next_heap_millis w ->
  let r := my_homekit_loop env w in
  events_of r = [EvHomekitLoop; EvMillis] ++ events_of (my_homekit_report env w) /\
  List.filter is_heap_event (events_of r) = [] /\
  heap_log_fired (events_of r) = false /\
  next_heap_millis (world_of r) = next_heap_millis w.
Proof.
  intros Hr Hh r. subst r.
  apply report_due_gt in Hr. pose proof (proj2 (heap_due_le env w) Hh) as Hh'.
  rewrite heap_log_fired_loop, next_heap_millis_loop, Hh'.
  rewrite my_homekit_loop_eq, my_homekit_report_eq, Hr, Hh'.
  unfold events_of; cbn [snd]. rewrite app_nil_r.
  repeat split. cbn [app filter is_heap_event is_heap_log]. apply report_events_no_heap.
Qed.

Lemma X2_witness :
  let env := mkEnv 2002 (FP.float_of_Z 21) (FP.float_of_Z 40) HIGH 30000 1 in
  let w := mkWorld 5001 2001 (FP.float_of_Z 18) (FP.float_of_Z 40) false in
  List.filter is_heap_event (events_of (my_homekit_loop env w)) = [] /\
  next_heap_millis (world_of (my_homekit_loop env w)) = 5001.
Proof.
  intros env w.
  assert (H1 : env_millis env > next_report_millis w) by reflexivity.
  assert (H2 : env_millis env <= next_heap_millis w) by (simpl; lia).
  destruct (X2_report_only_pass_leaves_heap_alone env w H1 H2) as (_ & Hf & _ & Hd).
  split; [exact Hf | exact Hd].
Defined.

(** X3. Whatever the gates decide, a pass polls the HomeKit server exactly
    once and reads the clock exactly once, and these are its first two calls,
    in that order. *)
Theorem X3_every_pass_polls_server_once_first env w :
  let evs := events_of (my_homekit_loop env w) in
  firstn 2 evs = [EvHomekitLoop; EvMillis] /\
  List.filter is_poll evs = [EvHomekitLoop] /\
  List.filter is_clock_read evs = [EvMillis].
Proof.
  cbv zeta. rewrite my_homekit_loop_eq. unfold events_of; cbn [snd].
  split; [reflexivity|].
  cbn [app filter is_poll is_clock_read]. rewrite !filter_app.
  destruct (report_events_no_poll env) as [Hp Hc].
  destruct (report_due env w), (heap_due env w); rewrite ?Hp, ?Hc; split; reflexivity.
Qed.

Lemma heap_events_of_pass env w :
  List.filter is_heap_event (events_of (my_homekit_loop env w)) =
  if heap_due env w then heap_events env else [].
Proof.
  rewrite my_homekit_loop_eq. unfold events_of; cbn [snd].
  cbn [app filter is_heap_event is_heap_log]. rewrite filter_app.
  destruct (report_due env w); [rewrite report_events_no_heap|];
    destruct (heap_due env w); reflexivity.
Qed.

(** X4. The heap log fires exactly when the clock is strictly greater than
    the heap deadline.  When it fires the deadline becomes the clock plus
    5000 modulo [2^32] and the line carries the free heap and the client
    count of that pass; when it does not, the deadline keeps its value. *)
Theorem X4_heap_gate_and_deadline env w :
  let now := env_millis env in
  let r := my_homekit_loop env w in
  (heap_log_fired (events_of r) = true <-> now > next_heap_millis w) /\
  (now > next_heap_millis w ->
     next_heap_millis (world_of r) = (now + 5000) mod 2 ^ 32 /\
     List.filter is_heap_event (events_of r) =
       [EvClientsCount; EvGetFreeHeap;
        EvLog "Free heap: %d, HomeKit clients: %d"
              [ArgInt (env_free_heap env); ArgInt (env_clients env)]]) /\
  (now <= next_heap_millis w ->
     next_heap_millis (world_of r) = next_heap_millis w /\
     List.filter is_heap_event (events_of r) = []).
Proof.
  intros now r. subst now r.
  pose proof (heap_events_of_pass env w) as Hev.
  split; [rewrite heap_log_fired_loop; apply heap_due_gt|].
  split; intros H.
  - apply heap_due_gt in H. rewrite Hev, next_heap_millis_loop, H. split; reflexivity.
  - apply heap_due_le in H. rewrite Hev, next_heap_millis_loop, H. split; reflexivity.
Qed.

Lemma X4_witness :
  let env := mkEnv 7000 (FP.float_of_Z 21) (FP.float_of_Z 40) HIGH 30000 2 in
  let w := mkWorld 5001 8000 (FP.float_of_Z 18) (FP.float_of_Z 40) false in
  next_heap_millis (world_of (my_homekit_loop env w)) = 12000 /\
  List.filter is_heap_event (events_of (my_homekit_loop env w)) =
    [EvClientsCount; EvGetFreeHeap;
     EvLog "Free heap: %d, HomeKit clients: %d" [ArgInt 30000; ArgInt 2]].
Proof.
  intros env w.
  destruct (X4_heap_gate_and_deadline env w) as (_ & H & _).
  exact (H eq_refl).
Defined.

(** X5. The two blocks of a pass do not influence one another.  What the heap
    block does (its calls, their payloads, the heap deadline it leaves) is
    fixed by the clock, the heap deadline, the free heap and the client
    count; the sensor values, the characteristic values and the report
    deadline play no part.  Conversely everything else the pass does is
    untouched by the heap deadline, the free heap and the client count. *)
Theorem X5_report_and_heap_blocks_are_independent env env' w w' :
  env_millis env = env_millis env' ->
  let r := my_homekit_loop env w in
  let r' := my_homekit_loop env' w' in
  (next_heap_millis w = next_heap_millis w' ->
   env_free_heap env = env_free_heap env' ->
   env_clients env = env_clients env' ->
     List.filter is_heap_event (events_of r) = List.filter is_heap_event (events_of r') /\
     next_heap_millis (world_of r) = next_heap_millis (world_of r')) /\
  (next_report_millis w = next_report_millis w' ->
   env_temperature env = env_temperature env' ->
   env_humidity env = env_humidity env' ->
   env_occupancy_pin env = env_occupancy_pin env' ->
     List.filter (fun ev => negb (is_heap_event ev)) (events_of r) =
       List.filter (fun ev => negb (is_heap_event ev)) (events_of r') /\
     next_report_millis (world_of r) = next_report_millis (world_of r') /\
     (report_fired (events_of r) = true ->
        occupancy_value (world_of r) = occupancy_value (world_of r') /\
        (FP.isnan (env_temperature env) || FP.isnan (env_humidity env) = false ->
           temperature_value (world_of r) = temperature_value (world_of r') /\
           humidity_value (world_of r) = humidity_value (world_of r')))).
Proof.
  intros Ht r r'. subst r r'. split.
  - intros Hd Hf Hc.
    assert (Hdue : heap_due env' w' = heap_due env w)
      by (unfold heap_due; rewrite Ht, Hd; reflexivity).
    rewrite !heap_events_of_pass, !next_heap_millis_loop, Hdue.
    unfold heap_events. rewrite Ht, Hd, Hf, Hc. split; reflexivity.
  - intros Hd Htemp Hhum Hpin.
    assert (Hrd : report_due env' w' = report_due env w)
      by (unfold report_due; rewrite Ht, Hd; reflexivity).
    assert (Hre : report_events env' = report_events env)
      by (unfold report_events, dht_failed, occupied; rewrite Htemp, Hhum, Hpin; reflexivity).
    split; [|split].
    + rewrite !my_homekit_loop_eq. unfold events_of; cbn [snd]. rewrite Hrd, Hre.
      cbn [app filter is_heap_event is_heap_log negb]. rewrite !filter_app.
      f_equal. f_equal. f_equal.
      destruct (heap_due env w), (heap_due env' w'); reflexivity.
    + rewrite !next_report_millis_loop, Hrd, Ht, Hd. reflexivity.
    + rewrite report_fired_loop. intros Hdue.
      destruct (report_pass_eq env w Hdue) as (H1 & H2 & H3 & _).
      destruct (report_pass_eq env' w') as (H1' & H2' & H3' & _); [congruence|].
      cbv zeta in H1, H2, H3, H1', H2', H3'.
      rewrite H1, H2, H3, H1', H2', H3', !after_report_eq.
      assert (Hfail : dht_failed env' = dht_failed env)
        by (unfold dht_failed; rewrite Htemp, Hhum; reflexivity).
      assert (Hocc : occupied env' = occupied env)
        by (unfold occupied; rewrite Hpin; reflexivity).
      cbv zeta. rewrite Hfail, Hocc, <- Htemp, <- Hhum. rewrite <- dht_failed_spec.
      split; [reflexivity|]. intros Hok. rewrite Hok. split; reflexivity.
Qed.

Lemma X5_witness :
  let env := mkEnv 7000 (FP.float_of_Z 21) (FP.float_of_Z 40) HIGH 30000 2 in
  let env' := mkEnv 7000 FP.NAN (FP.float_of_Z 55) LOW 30000 2 in
  let w := mkWorld 5001 8000 (FP.float_of_Z 18) (FP.float_of_Z 40) false in
  let w' := mkWorld 5001 0 (FP.float_of_Z 0) (FP.float_of_Z 0) true in
  List.filter is_heap_event (events_of (my_homekit_loop env w)) =
    List.filter is_heap_event (events_of (my_homekit_loop env' w')) /\
  next_heap_millis (world_of (my_homekit_loop env w)) =
    next_heap_millis (world_of (my_homekit_loop env' w')).
Proof.
  intros env env' w w'.
  destruct (X5_report_and_heap_blocks_are_independent env env' w w' eq_refl) as [H _].
  exact (H eq_refl eq_refl eq_refl).
Defined.

(** X6. The notifications of a pass, in order: none when the report is not
    due; temperature, then humidity, then occupancy when it is due and both
    reads succeeded; occupancy alone when a read failed.  A pass never makes
    more than three notifications. *)
Theorem X6_notifications_of_a_pass env w :
  let evs := events_of (my_homekit_loop env w) in
  notifications evs =
    (if report_due env w then
       if FP.isnan (env_temperature env) || FP.isnan (env_humidity env) then
         [EvNotify cha_occupancy_detected (bool_value (bool_of_int (env_occupancy_pin env)))]
       else
         [EvNotify cha_temperature
            (float_value (FP.to_float (FP.dsub (FP.to_double (env_temperature env)) FP.lit_3_0)));
          EvNotify cha_humidity (float_value (env_humidity env));
          EvNotify cha_occupancy_detected (bool_value (bool_of_int (env_occupancy_pin env)))]
     else []) /\
  (List.length (notifications evs) <= 3)%nat.
Proof.
  cbv zeta.
  assert (H : notifications (events_of (my_homekit_loop env w)) =
              if report_due env w then notifications (report_events env) else []).
  { rewrite my_homekit_loop_eq. unfold events_of, notifications; cbn [snd].
    cbn [app filter is_notify]. rewrite filter_app.
    destruct (report_due env w), (heap_due env w); cbn; rewrite ?app_nil_r; reflexivity. }
  rewrite H. unfold notifications, report_events. rewrite dht_failed_spec.
  destruct (report_due env w); [|split; [reflexivity | simpl; lia]].
  destruct (FP.isnan (env_temperature env) || FP.isnan (env_humidity env));
    split; try reflexivity; simpl; lia.
Qed.


(** ** The calibration on particular readings *)

Lemma spec_float_eqb_eq x y : spec_float_eqb x y = true -> x = y.
Proof.
  destruct x as [s|s| |s m e], y as [s'|s'| |s' m' e']; simpl; try discriminate; intros H.
  - apply Bool.eqb_prop in H. congruence.
  - apply Bool.eqb_prop in H. congruence.
  - reflexivity.
  - apply andb_prop in H as [H He]. apply andb_prop in H as [Hs Hm].
    apply Bool.eqb_prop in Hs. apply Pos.eqb_eq in Hm. apply Z.eqb_eq in He. congruence.
Qed.

(** X8. The validity test rejects not-a-number only.  An infinite temperature
    reading passes it: with a valid humidity the pass publishes that same
    infinity as the temperature (the subtraction leaves it unchanged). *)
Theorem X8_infinite_temperature_is_published env w s :
  report_due env w = true ->
  env_temperature env = S754_infinity s ->
  FP.isnan (env_humidity env) = false ->
  let r := my_homekit_loop env w in
  temperature_value (world_of r) = S754_infinity s /\
  notified cha_temperature (events_of r)
    = [EvNotify cha_temperature (float_value (S754_infinity s))].
Proof.
  intros Hdue Hinf Hhum r. subst r.
  destruct (report_pass_eq env w Hdue) as (H1 & _ & _ & _ & _ & Hn).
  cbv zeta in H1, Hn. rewrite H1, Hn, after_report_eq.
  unfold notified, report_events. rewrite dht_failed_spec, Hinf, Hhum.
  split; reflexivity.
Qed.

Lemma X8_witness :
  let env := mkEnv 1 (S754_infinity false) (FP.float_of_Z 40) LOW 30000 1 in
  let w := initial_world (FP.float_of_Z 0) (FP.float_of_Z 0) false in
  temperature_value (world_of (my_homekit_loop env w)) = S754_infinity false.
Proof.
  intros env w.
  exact (proj1 (X8_infinite_temperature_is_published env w false eq_refl eq_refl eq_refl)).
Defined.

(** X9. On every whole-degree reading from -40 to 125 (the ranges of the
    DHT11 and DHT22) the value computed for [temp] is exactly the reading
    minus three: promotion, subtraction and conversion back lose nothing. *)
Theorem X9_calibration_exact_on_whole_degrees (n : Z) :
  -40 <= n <= 125 ->
  calibrated (FP.float_of_Z n) = FP.float_of_Z (n - 3).
Proof.
  intros Hn.
  assert (H : forallb (fun k => spec_float_eqb
                                  (calibrated (FP.float_of_Z (Z.of_nat k - 40)))
                                  (FP.float_of_Z (Z.of_nat k - 40 - 3)))
                      (seq 0 166) = true) by (vm_compute; reflexivity).
  rewrite forallb_forall in H.
  specialize (H (Z.to_nat (n + 40))). rewrite in_seq in H.
  replace (Z.of_nat (Z.to_nat (n + 40)) - 40) with n in H by lia.
  apply spec_float_eqb_eq, H. lia.
Qed.

Lemma X9_witness : calibrated (FP.float_of_Z (-40)) = FP.float_of_Z (-43).
Proof.
  apply (X9_calibration_exact_on_whole_degrees (-40)). lia.
Defined.

(** ** Runs of passes: what the deadlines do over time *)

Lemma run_fst_cons env envs w :
  fst (run (env :: envs) w) = fst (run envs (world_of (my_homekit_loop env w))).
Proof.
  cbn [run]. destruct (run envs (world_of (my_homekit_loop env w))). reflexivity.
Qed.

Lemma add_after_overflow t k :
  0 <= k -> t <= UInt32.max_value -> UInt32.max_value < t + k ->
  k <= UInt32.modulus ->
  UInt32.add t k = t + k - UInt32.modulus.
Proof.
  unfold UInt32.add, UInt32.wrap, UInt32.max_value, UInt32.modulus. intros Hk Ht Hov Hk'.
  replace (t + k) with (t + k - 2 ^ 32 + 1 * 2 ^ 32) at 1 by lia.
  rewrite Z_mod_plus_full. apply Z.mod_small. lia.
Qed.

(** X11. In the last 2000 ms before the 32-bit clock wraps the report gate
    does not hold reports back: starting from a deadline below that window,
    every pass whose clock value lies in it reports, however close together
    the passes are. *)
Theorem X11_every_pass_reports_just_before_wrap envs w :
  0 <= next_report_millis w < UInt32.modulus - REPORTING_TIME_MS ->
  Forall (fun env => UInt32.modulus - REPORTING_TIME_MS <= env_millis env <= UInt32.max_value) envs ->
  Forall (fun evs => report_fired evs = true) (snd (run envs w)).
Proof.
  revert w. induction envs as [|env envs IH]; intros w HD Hall.
  - constructor.
  - inversion Hall as [|? ? Ht Hrest]; subst. rewrite run_cons.
    assert (Hdue : report_due env w = true) by (apply report_due_gt; lia).
    constructor.
    + rewrite report_fired_loop. exact Hdue.
    + apply IH; [|exact Hrest].
      rewrite next_report_millis_loop, Hdue.
      rewrite add_after_overflow;
        unfold REPORTING_TIME_MS, UInt32.max_value, UInt32.modulus in *; lia.
Qed.

Lemma X11_witness :
  let e t := mkEnv t (FP.float_of_Z 21) (FP.float_of_Z 40) LOW 30000 1 in
  let w := initial_world (FP.float_of_Z 0) (FP.float_of_Z 0) false in
  Forall (fun evs => report_fired evs = true)
         (snd (run [e 4294966296; e 4294966306; e 4294966316] w)).
Proof.
  intros e w.
  apply (X11_every_pass_reports_just_before_wrap [e 4294966296; e 4294966306; e 4294966316] w).
  - unfold UInt32.modulus, REPORTING_TIME_MS. simpl. lia.
  - repeat constructor;
      unfold UInt32.modulus, UInt32.max_value, REPORTING_TIME_MS; simpl; lia.
Defined.

(** X12. A report at clock value 4294965295 sets the deadline to 4294967295,
    the largest [uint32_t].  From a world with that deadline no pass ever
    reports again, whatever 32-bit values the clock takes afterwards, and
    the deadline never moves. *)
Theorem X12_deadline_at_uint32_max_stops_reports :
  (forall env w,
      env_millis env = UInt32.max_value - REPORTING_TIME_MS ->
      next_report_millis w < env_millis env ->
      next_report_millis (world_of (my_homekit_loop env w)) = UInt32.max_value) /\
  (forall envs w,
      next_report_millis w = UInt32.max_value ->
      Forall (fun env => env_millis env <= UInt32.max_value) envs ->
      Forall (fun evs => report_fired evs = false) (snd (run envs w)) /\
      next_report_millis (fst (run envs w)) = UInt32.max_value).
Proof.
  split.
  - intros env w Ht Hlt.
    assert (Hdue : report_due env w = true) by (apply report_due_gt; lia).
    rewrite next_report_millis_loop, Hdue, Ht. reflexivity.
  - intros envs. induction envs as [|env envs IH]; intros w HD Hall.
    + split; [constructor | exact HD].
    + inversion Hall as [|? ? Ht Hrest]; subst.
      assert (Hdue : report_due env w = false) by (apply report_due_le; lia).
      assert (HD' : next_report_millis (world_of (my_homekit_loop env w)) = UInt32.max_value)
        by (rewrite next_report_millis_loop, Hdue; exact HD).
      destruct (IH _ HD' Hrest) as [IH1 IH2].
      rewrite run_cons, run_fst_cons. split; [|exact IH2].
      constructor; [|exact IH1]. rewrite report_fired_loop. exact Hdue.
Qed.

Lemma X12_witness :
  let e t := mkEnv t (FP.float_of_Z 21) (FP.float_of_Z 40) LOW 30000 1 in
  let w := initial_world (FP.float_of_Z 0) (FP.float_of_Z 0) false in
  let w1 := world_of (my_homekit_loop (e 4294965295) w) in
  next_report_millis w1 = 4294967295 /\
  Forall (fun evs => report_fired evs = false)
         (snd (run [e 4294965305; e 4294967295; e 0; e 3000] w1)).
Proof.
  intros e w w1.
  destruct X12_deadline_at_uint32_max_stops_reports as [Hreach Hstuck].
  assert (H1 : next_report_millis w1 = UInt32.max_value)
    by (apply (Hreach (e 4294965295) w); [reflexivity | simpl; lia]).
  split; [exact H1|].
  apply (Hstuck [e 4294965305; e 4294967295; e 0; e 3000] w1 H1).
  repeat constructor; unfold UInt32.max_value, UInt32.modulus; simpl; lia.
Defined.

Lemma pass_values_never_nan env w :
  FP.isnan (temperature_value w) = false ->
  FP.isnan (humidity_value w) = false ->
  let r := my_homekit_loop env w in
  FP.isnan (temperature_value (world_of r)) = false /\
  FP.isnan (humidity_value (world_of r)) = false /\
  (forall c v, In (EvNotify c (float_value v)) (events_of r) -> FP.isnan v = false).
Proof.
  intros Ht Hh r. subst r. rewrite my_homekit_loop_eq.
  unfold world_of, events_of; cbn [fst snd]. rewrite after_report_eq.
  unfold report_events, heap_events.
  pose proof (dht_failed_spec env) as Hspec.
  destruct (report_due env w), (heap_due env w), (dht_failed env); cbn;
    symmetry in Hspec; try apply orb_false_elim in Hspec as [Hs1 Hs2];
    rewrite ?calibrated_isnan;
    (split; [assumption|]); (split; [assumption|]);
    intros c v Hin;
    repeat (destruct Hin as [Hin|Hin]; try discriminate Hin); try contradiction;
    injection Hin as <- <-; rewrite ?calibrated_isnan; assumption.
Qed.

(** X13. Not-a-number never reaches HomeKit.  If the temperature and humidity
    characteristics do not hold a not-a-number to begin with, they never
    hold one after any run of passes, whatever the sensor returns, and no
    notification of any pass carries a not-a-number float. *)
Theorem X13_characteristics_never_hold_nan envs w :
  FP.isnan (temperature_value w) = false ->
  FP.isnan (humidity_value w) = false ->
  FP.isnan (temperature_value (fst (run envs w))) = false /\
  FP.isnan (humidity_value (fst (run envs w))) = false /\
  Forall (fun evs => forall c v, In (EvNotify c (float_value v)) evs -> FP.isnan v = false)
         (snd (run envs w)).
Proof.
  revert w. induction envs as [|env envs IH]; intros w Ht Hh.
  - repeat split; try assumption. constructor.
  - destruct (pass_values_never_nan env w Ht Hh) as (Ht' & Hh' & Hev).
    rewrite run_fst_cons, run_cons.
    destruct (IH _ Ht' Hh') as (IH1 & IH2 & IH3).
    repeat split; try assumption. constructor; assumption.
Qed.

Lemma X13_witness :
  let e t x := mkEnv t x (FP.float_of_Z 40) LOW 30000 1 in
  let w := initial_world (FP.float_of_Z 0) (FP.float_of_Z 0) false in
  FP.isnan (temperature_value (fst (run [e 1 FP.NAN; e 2002 (FP.float_of_Z 21)] w))) = false.
Proof.
  intros e w.
  exact (proj1 (X13_characteristics_never_hold_nan
                  [e 1 FP.NAN; e 2002 (FP.float_of_Z 21)] w eq_refl eq_refl)).
Defined.

Lemma add_heap_no_overflow env :
  heap_no_overflow env -> UInt32.add (env_millis env) (5 * 1000) = env_millis env + 5000.
Proof.
  unfold heap_no_overflow, UInt32.add, UInt32.wrap, UInt32.max_value, UInt32.modulus.
  intros [H0 H1]. apply Z.mod_small. lia.
Qed.

Lemma heap_deadline_never_decreases env w :
  heap_no_overflow env ->
  next_heap_millis w <= next_heap_millis (world_of (my_homekit_loop env w)).
Proof.
  intros Hno. rewrite next_heap_millis_loop.
  destruct (heap_due env w) eqn:Hdue; [|lia].
  apply heap_due_gt in Hdue. rewrite add_heap_no_overflow by assumption. lia.
Qed.

Lemma no_heap_log_up_to_deadline envs :
  forall w D j env_j evs_j,
    Forall heap_no_overflow envs ->
    D <= next_heap_millis w ->
    nth_error envs j = Some env_j ->
    nth_error (snd (run envs w)) j = Some evs_j ->
    env_millis env_j <= D ->
    heap_log_fired evs_j = false.
Proof.
  induction envs as [|env envs IH]; intros w D j env_j evs_j Hall HD Hj Hevs Hle.
  - destruct j; discriminate.
  - rewrite run_cons in Hevs. inversion Hall as [|? ? Hno Hrest]; subst.
    destruct j as [|j]; cbn [nth_error] in Hj, Hevs.
    + injection Hj as <-. injection Hevs as <-.
      rewrite heap_log_fired_loop. apply heap_due_le. lia.
    + apply (IH (world_of (my_homekit_loop env w)) D j env_j evs_j); auto.
      pose proof (heap_deadline_never_decreases env w Hno). lia.
Qed.

(** X14. The heap log is rate-limited to the literal of line 108: along any
    run of passes on which the clock plus 5000 fits in 32 bits, once the
    line has been logged at clock value [t] it is not logged again on any
    later pass whose clock value is at most [t + 5000]. *)
Theorem X14_no_second_heap_log_within_5000 envs w :
  Forall heap_no_overflow envs ->
  forall i j env_i env_j evs_i evs_j,
    (i < j)%nat ->
    nth_error envs i = Some env_i ->
    nth_error envs j = Some env_j ->
    nth_error (snd (run envs w)) i = Some evs_i ->
    nth_error (snd (run envs w)) j = Some evs_j ->
    heap_log_fired evs_i = true ->
    env_millis env_j <= env_millis env_i + 5000 ->
    heap_log_fired evs_j = false.
Proof.
  revert w. induction envs as [|env envs IH];
    intros w Hall i j env_i env_j evs_i evs_j Hij Hi Hj Hei Hej Hfired Hle.
  { destruct i; discriminate. }
  rewrite run_cons in Hei, Hej. inversion Hall as [|? ? Hno Hrest]; subst.
  destruct j as [|j]; [lia|]. cbn [nth_error] in Hj, Hej.
  destruct i as [|i]; cbn [nth_error] in Hi, Hei.
  - injection Hi as <-. injection Hei as <-.
    rewrite heap_log_fired_loop in Hfired.
    apply (no_heap_log_up_to_deadline envs (world_of (my_homekit_loop env w))
             (env_millis env + 5000) j env_j evs_j); auto.
    rewrite next_heap_millis_loop, Hfired, add_heap_no_overflow by assumption. lia.
  - apply (IH (world_of (my_homekit_loop env w)) Hrest i j env_i env_j evs_i evs_j);
      auto; lia.
Qed.

Lemma X14_witness :
  let e t := mkEnv t (FP.float_of_Z 21) (FP.float_of_Z 40) LOW 30000 1 in
  let w := initial_world (FP.float_of_Z 0) (FP.float_of_Z 0) false in
  heap_log_fired (events_of (my_homekit_loop (e 5001) (world_of (my_homekit_loop (e 1) w))))
    = false.
Proof.
  intros e w.
  assert (Hall : Forall heap_no_overflow [e 1; e 5001]).
  { repeat constructor; unfold UInt32.max_value, UInt32.modulus; simpl; lia. }
  assert (Hfired : heap_log_fired (events_of (my_homekit_loop (e 1) w)) = true)
    by (vm_compute; reflexivity).
  assert (Hlt : (0 < 1)%nat) by lia.
  assert (Ht : env_millis (e 5001) <= env_millis (e 1) + 5000) by (simpl; lia).
  assert (H0 : nth_error (snd (run [e 1; e 5001] w)) 0
               = Some (events_of (my_homekit_loop (e 1) w)))
    by (rewrite run_cons; reflexivity).
  assert (H1 : nth_error (snd (run [e 1; e 5001] w)) 1 =
               Some (events_of (my_homekit_loop (e 5001) (world_of (my_homekit_loop (e 1) w)))))
    by (rewrite !run_cons; reflexivity).
  exact (X14_no_second_heap_log_within_5000 [e 1; e 5001] w Hall 0%nat 1%nat (e 1) (e 5001)
           _ _ Hlt eq_refl eq_refl H0 H1 Hfired Ht).
Defined.

(** X15. A due report is not lost.  Passes that do not report leave the
    report deadline where it was, so after any run of such passes the first
    pass whose clock value is strictly greater than the deadline reports. *)
Theorem X15_pending_report_fires_when_clock_passes_deadline envs w env :
  Forall (fun evs => report_fired evs = false) (snd (run envs w)) ->
  next_report_millis (fst (run envs w)) = next_report_millis w /\
  (env_millis env > next_report_millis w ->
     report_fired (events_of (my_homekit_loop env (fst (run envs w)))) = true).
Proof.
  intros Hquiet.
  assert (Hsame : next_report_millis (fst (run envs w)) = next_report_millis w).
  { revert w Hquiet. induction envs as [|e envs IH]; intros w Hquiet; [reflexivity|].
    rewrite run_cons in Hquiet. inversion Hquiet as [|? ? Hhead Hrest]; subst.
    rewrite run_fst_cons, (IH _ Hrest), next_report_millis_loop.
    rewrite report_fired_loop in Hhead. rewrite Hhead. reflexivity. }
  split; [exact Hsame|].
  intros Hgt. rewrite report_fired_loop. apply report_due_gt. rewrite Hsame. exact Hgt.
Qed.

Lemma X15_witness :
  let e t := mkEnv t (FP.float_of_Z 21) (FP.float_of_Z 40) LOW 30000 1 in
  let w := mkWorld 5001 2001 (FP.float_of_Z 18) (FP.float_of_Z 40) false in
  report_fired (events_of (my_homekit_loop (e 2002) (fst (run [e 1990; e 2001] w)))) = true.
Proof.
  intros e w.
  assert (Hquiet : Forall (fun evs => report_fired evs = false) (snd (run [e 1990; e 2001] w))).
  { rewrite !run_cons. repeat constructor; vm_compute; reflexivity. }
  destruct (X15_pending_report_fires_when_clock_passes_deadline [e 1990; e 2001] w (e 2002) Hquiet)
    as [_ H].
  apply H. reflexivity.
Defined.

(** ** The whole sketch: [setup()] once, then [loop()] repeatedly *)

Lemma loops_cons env envs w :
  loops (env :: envs) w =
  (fst (loops envs (world_of (my_homekit_loop env w))),
   (List.map EvPass (events_of (my_homekit_loop env w)) ++ [EvDelay 10])
     ++ snd (loops envs (world_of (my_homekit_loop env w)))).
Proof.
  cbn [loops loop]. destruct (loops envs (world_of (my_homekit_loop env w))). reflexivity.
Qed.

Lemma pass_events_map evs : pass_events (List.map EvPass evs) = evs.
Proof.
  unfold pass_events. induction evs as [|ev evs IH]; [reflexivity|].
  cbn [map flat_map app]. rewrite IH. reflexivity.
Qed.

Lemma pass_requirements_met_by_setup env w ev :
  In ev (events_of (my_homekit_loop env w)) -> incl (requires (EvPass ev)) setup.
Proof.
  rewrite my_homekit_loop_eq. unfold events_of, report_events, heap_events; cbn [snd].
  destruct (report_due env w), (heap_due env w), (dht_failed env); cbn; intros Hin;
    repeat (destruct Hin as [<-|Hin]); try contradiction;
    intros x Hx; cbn in Hx; repeat (destruct Hx as [<-|Hx]); try contradiction;
    cbv; tauto.
Qed.

Lemma loops_requirements_met_by_setup envs :
  forall w ev, In ev (snd (loops envs w)) -> incl (requires ev) setup.
Proof.
  induction envs as [|env envs IH]; intros w ev Hin; [contradiction|].
  rewrite loops_cons in Hin. cbn [snd] in Hin.
  rewrite !in_app_iff in Hin. destruct Hin as [[Hin|Hin]|Hin].
  - apply in_map_iff in Hin as (e & <- & He).
    exact (pass_requirements_met_by_setup env w e He).
  - destruct Hin as [<-|[]]. intros x [].
  - exact (IH _ _ Hin).
Qed.

(** X16. Nothing is used before it is set up.  In every trace of the sketch,
    a [digitalRead] of a pin comes after [pinMode] made that pin an input, a
    [digitalWrite] after [pinMode] made the pin an output, a read of the
    DHT after [dht.setup], a poll of or notification to the HomeKit server
    after [arduino_homekit_setup], and a serial line after [Serial.begin]. *)
Theorem X16_setup_precedes_every_use envs t0 h0 o0 pre ev post :
  sketch envs t0 h0 o0 = pre ++ ev :: post ->
  incl (requires ev) pre.
Proof.
  unfold sketch. intros Heq.
  apply app_eq_app in Heq as [l [[Hsetup Hrest]|[Hpre Hrest]]].
  - destruct l as [|ev' l].
    + rewrite app_nil_r in Hsetup. subst pre. cbn [app] in Hrest.
      apply (loops_requirements_met_by_setup envs (initial_world t0 h0 o0)).
      rewrite <- Hrest. left. reflexivity.
    + cbn [app] in Hrest. injection Hrest as <- _.
      assert (Hin : In ev setup) by (rewrite Hsetup; apply in_elt).
      cbv in Hin. repeat (destruct Hin as [<-|Hin]); try contradiction; intros x [].
  - subst pre. apply incl_appl.
    apply (loops_requirements_met_by_setup envs (initial_world t0 h0 o0)).
    rewrite Hrest. apply in_elt.
Qed.

Lemma X16_witness :
  let env := mkEnv 1 (FP.float_of_Z 21) (FP.float_of_Z 40) HIGH 30000 1 in
  incl [EvPinMode D1 INPUT]
       (setup ++ [EvPass EvHomekitLoop; EvPass EvMillis; EvPass EvGetTemperature;
                  EvPass EvGetHumidity]).
Proof.
  intros env.
  apply (X16_setup_precedes_every_use [env] (FP.float_of_Z 0) (FP.float_of_Z 0) false
           (setup ++ [EvPass EvHomekitLoop; EvPass EvMillis; EvPass EvGetTemperature;
                      EvPass EvGetHumidity])
           (EvPass (EvDigitalRead D1))
           (List.skipn 5 (snd (loop env (initial_world (FP.float_of_Z 0) (FP.float_of_Z 0) false))))).
  vm_compute. reflexivity.
Defined.

(** X17. [loop()] adds nothing to a pass but the 10 ms sleep that ends it:
    after any number of iterations the world is the one the passes alone
    produce, the calls other than [delay] are those of the passes in order,
    and there has been exactly one [delay(10)] per iteration. *)
Theorem X17_loops_are_passes_plus_one_delay_each envs w :
  fst (loops envs w) = fst (run envs w) /\
  pass_events (snd (loops envs w)) = List.concat (snd (run envs w)) /\
  List.filter is_delay (snd (loops envs w)) = List.repeat (EvDelay 10) (List.length envs).
Proof.
  revert w. induction envs as [|env envs IH]; intros w.
  - repeat split.
  - rewrite loops_cons, run_fst_cons, run_cons. cbn [fst snd].
    destruct (IH (world_of (my_homekit_loop env w))) as (IH1 & IH2 & IH3).
    split; [exact IH1|]. split.
    + unfold pass_events in *. rewrite !flat_map_app. fold (pass_events
        (List.map EvPass (events_of (my_homekit_loop env w)))).
      rewrite pass_events_map, IH2. cbn [flat_map concat app]. rewrite app_nil_r. reflexivity.
    + rewrite !filter_app, IH3. cbn [length repeat filter is_delay app].
      assert (Hnone : forall l, List.filter is_delay (List.map EvPass l) = []).
      { induction l as [|x l IHl]; [reflexivity|exact IHl]. }
      rewrite Hnone. reflexivity.
Qed.
